(** * Home Assistant adapters: the WS66i coordinator and the Nexia entities

    A shallow embedding of
    - [homeassistant/components/ws66i/coordinator.py]
      (class [Ws66iDataUpdateCoordinator]) and
    - [homeassistant/components/nexia/entity.py]
      (classes [NexiaEntity], [NexiaThermostatEntity],
      [NexiaThermostatZoneEntity]),
    followed by the properties their specification states about them,
    and by further properties of these two files and of the fixtures of
    [tests/components/google/conftest.py].

    Python objects are records, Python [int]s are [Z], [str]s are [string],
    [dict]s with string keys are [gmap string _], [set]s are [gset _].
    Methods that talk to the vendor library or to the host run in a small
    state-and-exception monad; vendor libraries and host constants that the
    adapters import are parameters, bundled in classes. *)

From stdpp Require Import base list strings pretty gmap.

(** * Part I: definitions *)

(** ** ws66i/coordinator.py *)

Module Ws66i.

(** What a call of the vendor's [zone_status] can do: return a
    [ZoneStatus], return [None], or raise something of the vendor's own. *)
Inductive Reply (S E : Type) : Type :=
  | Returned (r : option S)
  | Thrown (e : E).
Arguments Returned {S E} r.
Arguments Thrown {S E} e.

(** The part of [pyws66i] the coordinator uses.  [WS66i] is the handle the
    coordinator keeps, [Amp] the state of the amplifier link behind it
    (the reply to a query may depend on it and change it). *)
Class Vendor := {
  WS66i : Type;
  Amp : Type;
  ZoneStatus : Type;
  VendorError : Type;
  zone_status : WS66i → Z → Amp → Reply ZoneStatus VendorError * Amp
}.

Section coordinator.
Context `{Vendor}.

(** The two exceptions that can leave the coordinator's methods:
    the host's [UpdateFailed], and whatever the vendor call raised. *)
Inductive Exn : Type :=
  | UpdateFailed (msg : string)
  | VendorExn (e : VendorError).

Inductive Result (A : Type) : Type :=
  | Ok (a : A)
  | Raise (e : Exn).
Global Arguments Ok {A} a.
Global Arguments Raise {A} e.

(** The fields [__init__] sets ([hass], the logger, the name and the
    poll interval go to the host's base class). *)
Record Ws66iDataUpdateCoordinator : Type := {
  _ws66i : WS66i;
  _zones : list Z
}.

(** [__init__(self, hass, my_api, zones)] *)
Definition __init__ (my_api : WS66i) (zones : list Z)
  : Ws66iDataUpdateCoordinator :=
  {| _ws66i := my_api; _zones := zones |}.

(** The state a method runs in: the coordinator object, the amplifier
    behind its handle, the record of the vendor calls made so far
    (zone id asked, reply received), oldest first, and the record of the
    jobs the host's executor has run so far, each with the vendor calls
    made inside it. *)
Record World : Type := {
  self : Ws66iDataUpdateCoordinator;
  amp : Amp;
  calls : list (Z * Reply ZoneStatus VendorError);
  executor_jobs : list (list (Z * Reply ZoneStatus VendorError))
}.

Definition M (A : Type) : Type := World → Result A * World.

Global Instance M_ret : MRet M := λ A a w, (Ok a, w).
Global Instance M_bind : MBind M := λ A B k m w,
  match m w with
  | (Ok a, w') => k a w'
  | (Raise e, w') => (Raise e, w')
  end.

Definition raise {A} (e : Exn) : M A := λ w, (Raise e, w).
Definition get_self : M Ws66iDataUpdateCoordinator := λ w, (Ok (self w), w).

(** [ws66i.zone_status(zone_id)]: the vendor answers, the amplifier
    moves on, the call is recorded; a vendor exception is not caught. *)
Definition call_zone_status (ws66i : WS66i) (zone_id : Z)
  : M (option ZoneStatus) := λ w,
  let '(reply, amp') := zone_status ws66i zone_id (amp w) in
  let w' := {| self := self w; amp := amp';
               calls := calls w ++ [(zone_id, reply)];
               executor_jobs := executor_jobs w |} in
  match reply with
  | Returned r => (Ok r, w')
  | Thrown e => (Raise (VendorExn e), w')
  end.

(** [f"Failed to update zone {zone_id}"] *)
Definition update_failed_msg (zone_id : Z) : string :=
  "Failed to update zone " +:+ pretty zone_id.

(** The [for zone_id in self._zones:] loop, [data] being the list built
    so far. *)
Fixpoint for_zone_id (zones : list Z) (data : list ZoneStatus)
  : M (list ZoneStatus) :=
  match zones with
  | [] => mret data
  | zone_id :: zones' =>
      me ← get_self;
      data_zone ← call_zone_status (_ws66i me) zone_id;
      match data_zone with
      | None => raise (UpdateFailed (update_failed_msg zone_id))
      | Some status => for_zone_id zones' (data ++ [status])
      end
  end.

(** [_update_all_zones(self)] *)
Definition _update_all_zones : M (list ZoneStatus) :=
  me ← get_self;
  for_zone_id (_zones me) [].

(** Modelled from the spec: [hass.async_add_executor_job] and [await]
    belong to the host and are not part of the adapter.  The spec says
    the coordinator "delegat[es] a blocking vendor call to an executor":
    the job handed over is run to its end by the executor, which leaves
    a record of it with the vendor calls made inside, and the future it
    gives back holds the job's outcome, a value or an exception.  A
    method called directly, not through the executor, leaves no such
    record. *)
Inductive Future (A : Type) : Type :=
  | Done (outcome : Result A).
Global Arguments Done {A} outcome.

Definition async_add_executor_job {A} (target : M A) : M (Future A) :=
  λ w, let '(outcome, w') := target w in
       (Ok (Done outcome),
        {| self := self w'; amp := amp w'; calls := calls w';
           executor_jobs :=
             executor_jobs w' ++ [drop (length (calls w)) (calls w')] |}).

(** Modelled from the spec: awaiting a finished future yields its value
    or raises its exception in the awaiting coroutine. *)
Definition await {A} (fut : Future A) : M A :=
  λ w, match fut with Done outcome => (outcome, w) end.

(** [_async_update_data(self)] *)
Definition _async_update_data : M (list ZoneStatus) :=
  fut ← async_add_executor_job _update_all_zones;
  await fut.

(** *** Vocabulary for the statements *)

(** The vendor calls a run of [m] from [w] made, oldest first. *)
Definition queried {A} (m : M A) (w : World)
  : list (Z * Reply ZoneStatus VendorError) :=
  drop (length (calls w)) (calls (m w).2).

(** What the vendor answers when asked about [zones] in this order,
    starting from amplifier state [a]; and the state it ends in. *)
Fixpoint vendor_replies (ws66i : WS66i) (zones : list Z) (a : Amp)
  : list (Reply ZoneStatus VendorError) :=
  match zones with
  | [] => []
  | zone_id :: zones' =>
      let '(reply, a') := zone_status ws66i zone_id a in
      reply :: vendor_replies ws66i zones' a'
  end.

Fixpoint vendor_after (ws66i : WS66i) (zones : list Z) (a : Amp) : Amp :=
  match zones with
  | [] => a
  | zone_id :: zones' =>
      vendor_after ws66i zones' (zone_status ws66i zone_id a).2
  end.

Definition status_reply (s : ZoneStatus) : Reply ZoneStatus VendorError :=
  Returned (Some s).
Definition no_data : Reply ZoneStatus VendorError := Returned None.

(** The shapes a run of the loop can take: the calls it makes and the
    outcome it ends with. *)
Inductive Run : list Z → list ZoneStatus →
    list (Z * Reply ZoneStatus VendorError) →
    Result (list ZoneStatus) → Prop :=
  | Run_done data :
      Run [] data [] (Ok data)
  | Run_status zone_id zones s data tr r :
      Run zones (data ++ [s]) tr r →
      Run (zone_id :: zones) data ((zone_id, status_reply s) :: tr) r
  | Run_no_data zone_id zones data :
      Run (zone_id :: zones) data [(zone_id, no_data)]
        (Raise (UpdateFailed (update_failed_msg zone_id)))
  | Run_thrown zone_id zones e data :
      Run (zone_id :: zones) data [(zone_id, Thrown e)]
        (Raise (VendorExn e)).

End coordinator.

End Ws66i.

(** ** nexia/entity.py *)

Module Nexia.

(** The constants [entity.py] imports from [.const] and from
    [homeassistant.const]; their values are not part of the file. *)
Class Const := {
  ATTR_ATTRIBUTION : string;
  ATTRIBUTION : string;
  DOMAIN : string;
  MANUFACTURER : string;
  SIGNAL_THERMOSTAT_UPDATE : string;
  SIGNAL_ZONE_UPDATE : string
}.

(** The type of the vendor's thermostat and zone ids, with what the
    adapter does to them: put them in a [set] (hashable, comparable) and
    format them in an f-string. *)
Class Ids := {
  Id : Type;
  Id_eq_dec :: EqDecision Id;
  Id_countable :: Countable Id;
  format_id : Id → string
}.

(** [nexia.thermostat.NexiaThermostat], as far as the entities look at
    it: the attribute [thermostat_id] and the answers of its getters. *)
Module NexiaThermostat.
Record t `{Ids} : Type := {
  thermostat_id : Id;
  get_model : string;
  get_name : string;
  get_firmware : string
}.
End NexiaThermostat.

(** [nexia.zone.NexiaThermostatZone]: [zone_id], the answer of
    [get_name()], and the thermostat the zone belongs to. *)
Module NexiaThermostatZone.
Record t `{Ids} : Type := {
  zone_id : Id;
  get_name : string;
  thermostat : NexiaThermostat.t
}.
End NexiaThermostatZone.

(** [NexiaDataUpdateCoordinator], of which [device_info] reads
    [nexia_home.root_url]. *)
Record NexiaHome : Type := { root_url : string }.
Record NexiaDataUpdateCoordinator : Type := { nexia_home : NexiaHome }.

(** What the entities ask of the host: the calls are recorded, oldest
    first.  [async_write_ha_state] is the bound method of the entity
    making the call.  [async_on_remove signal target] registers, for the
    removal of the entity, the unsubscribe callable that connecting
    [target] to [signal] returned. *)
Inductive Handler : Type := async_write_ha_state.

Inductive HostCall : Type :=
  | CoordinatorEntity_async_added_to_hass
  | async_dispatcher_connect (signal : string) (target : Handler)
  | async_on_remove (signal : string) (target : Handler)
  | async_dispatcher_send (signal : string).

(** A method of a class [Self] runs on the object and on the host. *)
Record Env (Self : Type) : Type := {
  me : Self;
  hass : list HostCall
}.
Arguments me {Self} e.
Arguments hass {Self} e.

Definition Method (Self A : Type) : Type := Env Self → A * Env Self.

Global Instance Method_ret {Self} : MRet (Method Self) := λ A a s, (a, s).
Global Instance Method_bind {Self} : MBind (Method Self) := λ A B k m s,
  let '(a, s') := m s in k a s'.

(** [self.attribute] *)
Definition attr {Self A} (field : Self → A) : Method Self A :=
  λ s, (field (me s), s).

(** A call into the host. *)
Definition host {Self} (c : HostCall) : Method Self () :=
  λ s, ((), {| me := me s; hass := hass s ++ [c] |}).

(** [super().m]: the parent's method runs on the parent's part of the
    object; what it leaves there is the object's parent part afterwards. *)
Definition super {Child Parent A} (up : Child → Parent)
  (down : Parent → Child → Child) (m : Method Parent A) : Method Child A :=
  λ s, let '(a, s') := m {| me := up (me s); hass := hass s |} in
       (a, {| me := down (me s') (me s); hass := hass s' |}).

(** Values of a [DeviceInfo] entry: a string, a set of
    [(domain, id)] pairs, or one such pair. *)
Inductive Value `{Ids} : Type :=
  | VStr (s : string)
  | VIdSet (ids : gset (string * Id))
  | VPair (p : string * Id).

(** [dict.update]: the entries of [other] replace or extend [data]'s. *)
Definition dict_update {V} (data other : gmap string V) : gmap string V :=
  other ∪ data.

(** *** class NexiaEntity(CoordinatorEntity) *)
Module NexiaEntity.
Section methods.
Context `{Const}.

Record t : Type := {
  coordinator : NexiaDataUpdateCoordinator;
  _unique_id : string;
  _name : string
}.

Definition __init__ (coordinator : NexiaDataUpdateCoordinator)
  (name unique_id : string) : t :=
  {| coordinator := coordinator; _unique_id := unique_id; _name := name |}.

Definition unique_id : Method t string := attr _unique_id.

Definition name : Method t string := attr _name.

Definition extra_state_attributes : Method t (gmap string string) :=
  mret {[ ATTR_ATTRIBUTION := ATTRIBUTION ]}.

End methods.
End NexiaEntity.

(** *** class NexiaThermostatEntity(NexiaEntity) *)
Module NexiaThermostatEntity.
Section methods.
Context `{Const} `{Ids}.

Record t : Type := {
  base : NexiaEntity.t;
  _thermostat : NexiaThermostat.t
}.

Definition with_base (b : NexiaEntity.t) (e : t) : t :=
  {| base := b; _thermostat := _thermostat e |}.

Definition __init__ (coordinator : NexiaDataUpdateCoordinator)
  (thermostat : NexiaThermostat.t) (name unique_id : string) : t :=
  {| base := NexiaEntity.__init__ coordinator name unique_id;
     _thermostat := thermostat |}.

(** Inherited from [NexiaEntity]. *)
Definition unique_id : Method t string :=
  super base with_base NexiaEntity.unique_id.
Definition name : Method t string :=
  super base with_base NexiaEntity.name.
Definition extra_state_attributes : Method t (gmap string string) :=
  super base with_base NexiaEntity.extra_state_attributes.

(** [device_info].  The [assert isinstance(self.coordinator,
    NexiaDataUpdateCoordinator)] holds by the type of [coordinator]. *)
Definition device_info : Method t (gmap string Value) :=
  coordinator ← attr (NexiaEntity.coordinator ∘ base);
  thermostat ← attr _thermostat;
  mret (<[ "configuration_url" := VStr (root_url (nexia_home coordinator)) ]>
       (<[ "identifiers" :=
             VIdSet {[ (DOMAIN, NexiaThermostat.thermostat_id thermostat) ]} ]>
       (<[ "manufacturer" := VStr MANUFACTURER ]>
       (<[ "model" := VStr (NexiaThermostat.get_model thermostat) ]>
       (<[ "name" := VStr (NexiaThermostat.get_name thermostat) ]>
       (<[ "sw_version" := VStr (NexiaThermostat.get_firmware thermostat) ]>
        ∅)))))).

(** [f"{SIGNAL_THERMOSTAT_UPDATE}-{self._thermostat.thermostat_id}"] *)
Definition thermostat_signal (thermostat : NexiaThermostat.t) : string :=
  SIGNAL_THERMOSTAT_UPDATE +:+ "-"
    +:+ format_id (NexiaThermostat.thermostat_id thermostat).

Definition async_added_to_hass : Method t () :=
  host CoordinatorEntity_async_added_to_hass;;
  thermostat ← attr _thermostat;
  host (async_dispatcher_connect (thermostat_signal thermostat)
          async_write_ha_state);;
  host (async_on_remove (thermostat_signal thermostat) async_write_ha_state).

Definition _signal_thermostat_update : Method t () :=
  thermostat ← attr _thermostat;
  host (async_dispatcher_send (thermostat_signal thermostat)).

End methods.
End NexiaThermostatEntity.

(** *** class NexiaThermostatZoneEntity(NexiaThermostatEntity) *)
Module NexiaThermostatZoneEntity.
Section methods.
Context `{Const} `{Ids}.

Record t : Type := {
  base : NexiaThermostatEntity.t;
  _zone : NexiaThermostatZone.t
}.

Definition with_base (b : NexiaThermostatEntity.t) (e : t) : t :=
  {| base := b; _zone := _zone e |}.

Definition __init__ (coordinator : NexiaDataUpdateCoordinator)
  (zone : NexiaThermostatZone.t) (name unique_id : string) : t :=
  {| base := NexiaThermostatEntity.__init__ coordinator
               (NexiaThermostatZone.thermostat zone) name unique_id;
     _zone := zone |}.

(** Inherited from [NexiaEntity] through [NexiaThermostatEntity]. *)
Definition unique_id : Method t string :=
  super base with_base NexiaThermostatEntity.unique_id.
Definition name : Method t string :=
  super base with_base NexiaThermostatEntity.name.
Definition extra_state_attributes : Method t (gmap string string) :=
  super base with_base NexiaThermostatEntity.extra_state_attributes.

(** The dictionary handed to [data.update] in [device_info]. *)
Definition zone_entries (zone : NexiaThermostatZone.t) : gmap string Value :=
  let zone_name := NexiaThermostatZone.get_name zone in
  <[ "identifiers" :=
       VIdSet {[ (DOMAIN, NexiaThermostatZone.zone_id zone) ]} ]>
  (<[ "name" := VStr zone_name ]>
  (<[ "suggested_area" := VStr zone_name ]>
  (<[ "via_device" :=
        VPair (DOMAIN, NexiaThermostat.thermostat_id
                         (NexiaThermostatZone.thermostat zone)) ]>
   ∅))).

(** [device_info], overriding the parent's. *)
Definition device_info : Method t (gmap string Value) :=
  data ← super base with_base NexiaThermostatEntity.device_info;
  zone ← attr _zone;
  mret (dict_update data (zone_entries zone)).

(** [f"{SIGNAL_ZONE_UPDATE}-{self._zone.zone_id}"] *)
Definition zone_signal (zone : NexiaThermostatZone.t) : string :=
  SIGNAL_ZONE_UPDATE +:+ "-" +:+ format_id (NexiaThermostatZone.zone_id zone).

Definition async_added_to_hass : Method t () :=
  super base with_base NexiaThermostatEntity.async_added_to_hass;;
  zone ← attr _zone;
  host (async_dispatcher_connect (zone_signal zone) async_write_ha_state);;
  host (async_on_remove (zone_signal zone) async_write_ha_state).

Definition _signal_zone_update : Method t () :=
  zone ← attr _zone;
  host (async_dispatcher_send (zone_signal zone)).

(** Inherited from [NexiaThermostatEntity]. *)
Definition _signal_thermostat_update : Method t () :=
  super base with_base NexiaThermostatEntity._signal_thermostat_update.

End methods.
End NexiaThermostatZoneEntity.

End Nexia.

(** ** The outcome of an update as a function of the vendor's replies *)

Module Ws66iReplies.
Import Ws66i.

Section replies.
Context `{Vendor}.

(** How many of the queries answered by [replies] a loop that stops
    after the first reply that is not a status gets to ask. *)
Fixpoint asked (replies : list (Reply ZoneStatus VendorError)) : nat :=
  match replies with
  | [] => 0
  | Returned (Some _) :: replies' => S (asked replies')
  | _ :: _ => 1
  end.

(** What such a loop ends with, [data] being the statuses collected
    before: the statuses when they all are, else what the first other
    reply makes of it. *)
Fixpoint outcome_of (zones : list Z)
    (replies : list (Reply ZoneStatus VendorError))
    (data : list ZoneStatus) : Result (list ZoneStatus) :=
  match zones, replies with
  | zone_id :: zones', Returned (Some s) :: replies' =>
      outcome_of zones' replies' (data ++ [s])
  | zone_id :: _, Returned None :: _ =>
      Raise (UpdateFailed (update_failed_msg zone_id))
  | zone_id :: _, Thrown e :: _ => Raise (VendorExn e)
  | _, _ => Ok data
  end.

(** A vendor whose replies do not depend on the state of the link. *)
Definition stateless : Prop :=
  ∀ ws66i zone_id a a',
    (zone_status ws66i zone_id a).1 = (zone_status ws66i zone_id a').1.

End replies.
End Ws66iReplies.

(** ** tests/components/google/conftest.py *)

Module GoogleConftest.

(** The constants the fixtures import: [API_BASE_URL] from
    [gcal_sync.auth], [DOMAIN] and [CONF_TRACK_NEW] from the google
    component, [CONF_CLIENT_ID] and [CONF_CLIENT_SECRET] from
    [homeassistant.const]. *)
Class Const := {
  API_BASE_URL : string;
  DOMAIN : string;
  CONF_TRACK_NEW : string;
  CONF_CLIENT_ID : string;
  CONF_CLIENT_SECRET : string
}.

Definition CALENDAR_ID : string :=
  "qwertyuiopasdfghjklzxcvbnm@import.calendar.google.com".

(** The values the configuration dictionaries hold. *)
Inductive Any : Type :=
  | AStr (s : string)
  | ABool (b : bool).

(** JSON bodies of the mocked API responses; a [dict] keeps its entries
    in the order they were written. *)
#[local] Unset Elimination Schemes.
Inductive Json : Type :=
  | JStr (s : string)
  | JBool (b : bool)
  | JList (l : list Json)
  | JDict (d : list (string * Json)).
#[local] Set Elimination Schemes.

(** What a fixture asks of [aioclient_mock]: the registrations are
    recorded, oldest first. *)
Inductive MockCall (Exc : Type) : Type :=
  | get (url : string) (json : list (string * Json)) (exc : option Exc)
  | post (url : string).
Arguments get {Exc} url json exc.
Arguments post {Exc} url.

Definition calendars_config_track : bool := true.

Definition calendars_config_ignore_availability : option bool := None.

Definition calendars_config_entity (calendars_config_track : bool)
    (calendars_config_ignore_availability : option bool)
  : gmap string Any :=
  let entity : gmap string Any :=
    <[ "track" := ABool calendars_config_track ]>
    (<[ "search" := AStr "#Backyard" ]>
    (<[ "name" := AStr "Backyard Light" ]>
    (<[ "device_id" := AStr "backyard_light" ]> ∅))) in
  match calendars_config_ignore_availability with
  | Some v => <[ "ignore_availability" := ABool v ]> entity
  | None => entity
  end.

(** *** class FakeStorage *)
Module FakeStorage.
Section methods.
Context {Credentials : Type}.

Record t : Type := { _creds : option Credentials }.

Definition __init__ : t := {| _creds := None |}.

Definition get (self : t) : option Credentials := _creds self.

Definition put (creds : Credentials) (self : t) : t :=
  {| _creds := Some creds |}.

End methods.
Global Arguments t Credentials : clear implicits.
End FakeStorage.

(** [mock_token_read]: [storage.put(creds)] *)
Definition mock_token_read {Credentials} (creds : Credentials)
    (storage : FakeStorage.t Credentials) : FakeStorage.t Credentials :=
  FakeStorage.put creds storage.

Section fixtures.
Context `{Const} {Exc : Type}.

(** [mock_events_list]'s [_put_result(response, calendar_id=None,
    exc=None)], on the list of registrations of [aioclient_mock]. *)
Definition mock_events_list (response : list (string * Json))
    (calendar_id : option string) (exc : option Exc)
    (aioclient_mock : list (MockCall Exc)) : list (MockCall Exc) :=
  let calendar_id :=
    match calendar_id with
    | None => CALENDAR_ID
    | Some calendar_id => calendar_id
    end in
  aioclient_mock ++
    [get (API_BASE_URL +:+ "/calendars/" +:+ calendar_id +:+ "/events")
       response exc].

(** [mock_events_list_items]'s [_put_items(items)] *)
Definition mock_events_list_items (items : list (list (string * Json)))
    (aioclient_mock : list (MockCall Exc)) : list (MockCall Exc) :=
  mock_events_list [("items", JList (JDict <$> items))] None None
    aioclient_mock.

(** [mock_calendars_list]'s [_put_result(response, exc=None)] *)
Definition mock_calendars_list (response : list (string * Json))
    (exc : option Exc)
    (aioclient_mock : list (MockCall Exc)) : list (MockCall Exc) :=
  aioclient_mock ++
    [get (API_BASE_URL +:+ "/users/me/calendarList") response exc].

(** [mock_insert_event]'s [_expect_result(calendar_id=CALENDAR_ID)];
    [None] stands for the argument left out. *)
Definition mock_insert_event (calendar_id : option string)
    (aioclient_mock : list (MockCall Exc)) : list (MockCall Exc) :=
  let calendar_id := default CALENDAR_ID calendar_id in
  aioclient_mock ++
    [post (API_BASE_URL +:+ "/calendars/" +:+ calendar_id +:+ "/events")].

Definition google_config_track_new : option bool := None.

Definition google_config (google_config_track_new : option bool)
  : gmap string Any :=
  let google_config : gmap string Any :=
    <[ CONF_CLIENT_SECRET := AStr "client-secret" ]>
    (<[ CONF_CLIENT_ID := AStr "client-id" ]> ∅) in
  match google_config_track_new with
  | Some v => <[ CONF_TRACK_NEW := ABool v ]> google_config
  | None => google_config
  end.

(** [{DOMAIN: google_config} if google_config else {}]: a [dict] counts
    as true when it is not empty. *)
Definition config (google_config : gmap string Any)
  : gmap string (gmap string Any) :=
  if bool_decide (google_config ≠ ∅) then {[ DOMAIN := google_config ]}
  else ∅.

End fixtures.

(** The URL of a registration. *)
Definition url_of {Exc} (c : MockCall Exc) : string :=
  match c with
  | get url _ _ => url
  | post url => url
  end.

End GoogleConftest.

(** ** Concrete vendors and constants, to run the definitions on *)

Module Samples.
Import Ws66i Nexia.

(** An amplifier with zones 11 to 16: a status is the zone id with the
    number of queries answered before; zone 0 makes the library raise,
    any other zone gives no data. *)
Definition amplifier : Vendor := {|
  WS66i := unit;
  Amp := nat;
  ZoneStatus := Z * nat;
  VendorError := string;
  zone_status := λ _ zone_id n,
    (if (11 <=? zone_id)%Z && (zone_id <=? 16)%Z
     then Returned (Some (zone_id, n))
     else if (zone_id =? 0)%Z then Thrown "no such zone"
     else Returned None,
     S n)
|}.

Definition world_of (zones : list Z) : @World amplifier :=
  {| self := @__init__ amplifier () zones; amp := 0; calls := [];
     executor_jobs := [] |}.

Definition nexia_const : Const := {|
  ATTR_ATTRIBUTION := "attribution";
  ATTRIBUTION := "Data provided by the vendor";
  DOMAIN := "nexia";
  MANUFACTURER := "Trane";
  SIGNAL_THERMOSTAT_UPDATE := "NEXIA_THERMOSTAT_UPDATE";
  SIGNAL_ZONE_UPDATE := "NEXIA_ZONE_UPDATE"
|}.

Definition int_ids : Ids := {| Id := Z; format_id := pretty |}.

Definition home : NexiaDataUpdateCoordinator :=
  {| nexia_home := {| root_url := "https://www.mynexia.com" |} |}.

Definition hallway : @NexiaThermostat.t int_ids :=
  @NexiaThermostat.Build_t int_ids 2059661%Z "XL1050" "Hallway" "5.9.1".

Definition upstairs : @NexiaThermostatZone.t int_ids :=
  @NexiaThermostatZone.Build_t int_ids 83261002%Z "Upstairs" hallway.

Definition downstairs : @NexiaThermostatZone.t int_ids :=
  @NexiaThermostatZone.Build_t int_ids 83261005%Z "Downstairs" hallway.

(** An amplifier whose replies depend on the zone asked only. *)
Definition fixed_amplifier : Vendor := {|
  WS66i := unit;
  Amp := nat;
  ZoneStatus := Z;
  VendorError := string;
  zone_status := λ _ zone_id n,
    (if (11 <=? zone_id)%Z && (zone_id <=? 16)%Z
     then Returned (Some zone_id)
     else if (zone_id =? 0)%Z then Thrown "no such zone"
     else Returned None,
     S n)
|}.

Definition fixed_world_of (zones : list Z) : @World fixed_amplifier :=
  {| self := @__init__ fixed_amplifier () zones; amp := 0; calls := [];
     executor_jobs := [] |}.

Definition google_const : GoogleConftest.Const := {|
  GoogleConftest.API_BASE_URL := "https://www.googleapis.com/calendar/v3";
  GoogleConftest.DOMAIN := "google";
  GoogleConftest.CONF_TRACK_NEW := "track_new_calendar";
  GoogleConftest.CONF_CLIENT_ID := "client_id";
  GoogleConftest.CONF_CLIENT_SECRET := "client_secret"
|}.

End Samples.

(** * Part II: properties *)

Module Ws66iFacts.
Import Ws66i Ws66iReplies.

Section facts.
Context `{Vendor}.

Implicit Types (w : World) (zones pre post : list Z)
  (data sts : list ZoneStatus)
  (tr : list (Z * Reply ZoneStatus VendorError))
  (replies : list (Reply ZoneStatus VendorError)).

(** One turn of the loop, by the vendor's reply. *)
Lemma for_zone_id_cons zone_id zones data w :
  for_zone_id (zone_id :: zones) data w =
    let '(reply, a') := zone_status (_ws66i (self w)) zone_id (amp w) in
    let w' := {| self := self w; amp := a';
                 calls := calls w ++ [(zone_id, reply)];
                 executor_jobs := executor_jobs w |} in
    match reply with
    | Returned (Some s) => for_zone_id zones (data ++ [s]) w'
    | Returned None => (Raise (UpdateFailed (update_failed_msg zone_id)), w')
    | Thrown e => (Raise (VendorExn e), w')
    end.
Proof.
  cbn [for_zone_id]. unfold mbind, M_bind, get_self, call_zone_status.
  destruct (zone_status _ _ _) as [[[s|]|e] a']; reflexivity.
Qed.

Lemma update_all_zones_unfold w :
  _update_all_zones w = for_zone_id (_zones (self w)) [] w.
Proof. reflexivity. Qed.

Lemma for_zone_id_Run zones : ∀ data w,
  ∃ tr, Run zones data tr (for_zone_id zones data w).1
        ∧ calls (for_zone_id zones data w).2 = calls w ++ tr
        ∧ self (for_zone_id zones data w).2 = self w.
Proof.
  induction zones as [|zone_id zones IH]; intros data w.
  - exists []. cbn. rewrite app_nil_r. eauto using Run.
  - rewrite for_zone_id_cons.
    destruct (zone_status _ _ _) as [[[s|]|e] a'].
    + destruct (IH (data ++ [s])
        {| self := self w; amp := a';
           calls := calls w ++ [(zone_id, Returned (Some s))];
           executor_jobs := executor_jobs w |})
        as (tr & Hrun & Hcalls & Hself).
      exists ((zone_id, status_reply s) :: tr). cbn zeta. split_and!.
      * by constructor.
      * rewrite Hcalls. cbn. by rewrite <-app_assoc.
      * by rewrite Hself.
    + exists [(zone_id, no_data)]. cbn. eauto using Run.
    + exists [(zone_id, Thrown e)]. cbn. eauto using Run.
Qed.

Lemma queried_of_calls {A} (m : M A) w tr :
  calls (m w).2 = calls w ++ tr → queried m w = tr.
Proof. unfold queried. intros ->. by rewrite drop_app_length. Qed.

Lemma update_all_zones_Run w :
  Run (_zones (self w)) [] (queried _update_all_zones w)
    (_update_all_zones w).1
  ∧ self (_update_all_zones w).2 = self w.
Proof.
  destruct (for_zone_id_Run (_zones (self w)) [] w) as (tr & Hrun & Hc & Hs).
  rewrite (queried_of_calls _ w tr) by done. by rewrite update_all_zones_unfold.
Qed.

(** What the outcome of a run says about the replies received in it. *)
Lemma Run_update_failed zones data tr r :
  Run zones data tr r →
  (∃ msg, r = Raise (UpdateFailed msg)) ↔ (∃ zone_id, (zone_id, no_data) ∈ tr).
Proof.
  induction 1 as [data|z zones s data tr r _ IH|z zones data|z zones e data].
  - split; [intros [? [=]]|intros [? ?%elem_of_nil]]; done.
  - rewrite IH. split; intros [z' Hz']; exists z'.
    + by right.
    + by apply elem_of_cons in Hz' as [[=]|?].
  - split; [intros _; exists z; by left|eauto].
  - split; [intros [? [=]]|].
    intros [z' Hz']. by apply list_elem_of_singleton in Hz'.
Qed.

Lemma Run_vendor_exn zones data tr r e :
  Run zones data tr r →
  r = Raise (VendorExn e) ↔ (∃ zone_id, (zone_id, Thrown e) ∈ tr).
Proof.
  induction 1 as [data|z zones s data tr r _ IH|z zones data|z zones e' data].
  - split; [intros [=]|intros [? ?%elem_of_nil]]; done.
  - rewrite IH. split; intros [z' Hz']; exists z'.
    + by right.
    + by apply elem_of_cons in Hz' as [[=]|?].
  - split; [intros [=]|].
    intros [z' Hz']. by apply list_elem_of_singleton in Hz'.
  - split.
    + intros [= ->]. exists z. by left.
    + intros [z' Hz']. apply list_elem_of_singleton in Hz'. congruence.
Qed.

Lemma Run_ok zones data tr r :
  Run zones data tr r →
  (∃ out, r = Ok out) ↔ (∀ c, c ∈ tr → ∃ s, c.2 = status_reply s).
Proof.
  induction 1 as [data|z zones s data tr r _ IH|z zones data|z zones e data].
  - split; [intros _ c ?%elem_of_nil; done|eauto].
  - rewrite IH. split; intros Hall c Hc.
    + apply elem_of_cons in Hc as [->|?]; [by exists s|auto].
    + apply Hall. by right.
  - split; [intros [? [=]]|].
    intros Hall. destruct (Hall (z, no_data)) as [s [=]]. by left.
  - split; [intros [? [=]]|].
    intros Hall. destruct (Hall (z, Thrown e)) as [s [=]]. by left.
Qed.

(** The vendor's answers to a list of queries, piecewise. *)
Lemma vendor_replies_length ws66i zones : ∀ a,
  length (vendor_replies ws66i zones a) = length zones.
Proof.
  induction zones as [|z zones IH]; intros a; cbn; [done|].
  destruct (zone_status ws66i z a) as [reply a']. cbn. by rewrite IH.
Qed.

Lemma vendor_replies_app ws66i pre post : ∀ a,
  vendor_replies ws66i (pre ++ post) a =
    vendor_replies ws66i pre a
      ++ vendor_replies ws66i post (vendor_after ws66i pre a).
Proof.
  induction pre as [|z pre IH]; intros a; cbn; [done|].
  destruct (zone_status ws66i z a) as [reply a']. cbn. by rewrite IH.
Qed.

(** The loop when every query is answered with a status. *)
Lemma for_zone_id_all_status zones : ∀ sts data w,
  vendor_replies (_ws66i (self w)) zones (amp w) = status_reply <$> sts →
  for_zone_id zones data w =
    (Ok (data ++ sts),
     {| self := self w;
        amp := vendor_after (_ws66i (self w)) zones (amp w);
        calls := calls w ++ zip zones (status_reply <$> sts);
        executor_jobs := executor_jobs w |}).
Proof.
  induction zones as [|z zones IH]; intros sts data w Hreplies.
  - destruct sts; [|done]. destruct w. cbn. by rewrite !app_nil_r.
  - rewrite for_zone_id_cons. cbn in Hreplies |- *.
    destruct (zone_status _ _ _) as [reply a'].
    destruct sts as [|s sts]; [done|]. injection Hreplies as -> Hreplies.
    cbn. rewrite (IH sts) by done. cbn.
    by rewrite <-!app_assoc.
Qed.

(** The loop when the first query not answered with a status is
    answered with [None]. *)
Lemma for_zone_id_first_no_data pre zone_id post : ∀ sts data w,
  vendor_replies (_ws66i (self w)) pre (amp w) = status_reply <$> sts →
  (zone_status (_ws66i (self w)) zone_id
     (vendor_after (_ws66i (self w)) pre (amp w))).1 = no_data →
  for_zone_id (pre ++ zone_id :: post) data w =
    (Raise (UpdateFailed (update_failed_msg zone_id)),
     {| self := self w;
        amp := vendor_after (_ws66i (self w)) (pre ++ [zone_id]) (amp w);
        calls := calls w ++ zip pre (status_reply <$> sts)
                   ++ [(zone_id, no_data)];
        executor_jobs := executor_jobs w |}).
Proof.
  induction pre as [|z pre IH]; intros sts data w Hreplies Hnone.
  - cbn [app]. rewrite for_zone_id_cons. cbn in Hnone |- *.
    destruct (zone_status _ _ _) as [reply a']. cbn in Hnone. by subst.
  - cbn [app]. rewrite for_zone_id_cons. cbn in Hreplies, Hnone |- *.
    destruct (zone_status _ _ _) as [reply a'].
    destruct sts as [|s sts]; [done|]. injection Hreplies as -> Hreplies.
    cbn in Hnone |- *. rewrite (IH sts) by done. cbn.
    by rewrite <-!app_assoc.
Qed.

(** The loop, run in one go: its outcome and the world it leaves are
    functions of the vendor's replies. *)
Lemma for_zone_id_outcome zones : ∀ data w,
  let replies := vendor_replies (_ws66i (self w)) zones (amp w) in
  for_zone_id zones data w =
    (outcome_of zones replies data,
     {| self := self w;
        amp := vendor_after (_ws66i (self w))
                 (take (asked replies) zones) (amp w);
        calls := calls w ++ take (asked replies) (zip zones replies);
        executor_jobs := executor_jobs w |}).
Proof.
  induction zones as [|z zones IH]; intros data w.
  - destruct w. cbn. by rewrite app_nil_r.
  - cbn zeta. rewrite for_zone_id_cons. cbn [vendor_replies].
    destruct (zone_status _ _ _) as [[[s|]|e] a'] eqn:Hz; cbn zeta.
    + rewrite IH. cbn. rewrite Hz. cbn. by rewrite <-app_assoc.
    + cbn. rewrite Hz. cbn. by rewrite take_0.
    + cbn. rewrite Hz. cbn. by rewrite take_0.
Qed.

Lemma update_all_zones_outcome w :
  let replies := vendor_replies (_ws66i (self w)) (_zones (self w)) (amp w) in
  _update_all_zones w =
    (outcome_of (_zones (self w)) replies [],
     {| self := self w;
        amp := vendor_after (_ws66i (self w))
                 (take (asked replies) (_zones (self w))) (amp w);
        calls := calls w
                   ++ take (asked replies) (zip (_zones (self w)) replies);
        executor_jobs := executor_jobs w |}).
Proof. rewrite update_all_zones_unfold. apply for_zone_id_outcome. Qed.

Lemma update_all_zones_queried w :
  let replies := vendor_replies (_ws66i (self w)) (_zones (self w)) (amp w) in
  queried _update_all_zones w
    = take (asked replies) (zip (_zones (self w)) replies).
Proof.
  cbn zeta. apply queried_of_calls. by rewrite update_all_zones_outcome.
Qed.

Lemma update_all_zones_queried_zones w :
  let replies := vendor_replies (_ws66i (self w)) (_zones (self w)) (amp w) in
  (queried _update_all_zones w).*1 = take (asked replies) (_zones (self w)).
Proof.
  cbn zeta. rewrite update_all_zones_queried, fmap_take, fst_zip; [done|].
  by rewrite vendor_replies_length.
Qed.

Lemma asked_all_status sts : asked (status_reply <$> sts) = length sts.
Proof. induction sts as [|s sts IH]; cbn; [done|by rewrite IH]. Qed.

Lemma asked_first_other i : ∀ replies sts r,
  take i replies = status_reply <$> sts →
  replies !! i = Some r →
  (∀ s, r ≠ status_reply s) →
  asked replies = S i.
Proof.
  induction i as [|i IH]; intros [|r0 replies] sts r Hpre Hi Hr; try done.
  - cbn in Hi. injection Hi as ->.
    destruct r as [[s|]|e]; [by destruct (Hr s)|done..].
  - destruct sts as [|s sts]; [done|]. cbn in Hpre, Hi.
    injection Hpre as -> Hpre. cbn. by rewrite (IH replies sts r).
Qed.

Lemma outcome_of_ok zones : ∀ replies data out,
  length replies = length zones →
  outcome_of zones replies data = Ok out →
  ∃ sts, out = data ++ sts ∧ replies = status_reply <$> sts.
Proof.
  induction zones as [|z zones IH]; intros [|[[s|]|e] replies] data out Hlen Hout;
    try done.
  - injection Hout as <-. exists []. by rewrite app_nil_r.
  - cbn in Hlen, Hout. injection Hlen as Hlen.
    destruct (IH replies (data ++ [s]) out Hlen Hout) as (sts & -> & ->).
    exists (s :: sts). by rewrite <-app_assoc.
Qed.

Lemma outcome_of_update_failed zones : ∀ replies data msg,
  outcome_of zones replies data = Raise (UpdateFailed msg) →
  ∃ i zone_id sts,
    zones !! i = Some zone_id
    ∧ msg = update_failed_msg zone_id
    ∧ take i replies = status_reply <$> sts
    ∧ replies !! i = Some no_data.
Proof.
  induction zones as [|z zones IH]; intros [|[[s|]|e] replies] data msg Hout;
    try done.
  - cbn in Hout.
    destruct (IH replies (data ++ [s]) msg Hout) as (i & z' & sts & ? & ? & ? & ?).
    exists (S i), z', (s :: sts). cbn. split_and!; [done..| |done].
    by f_equal.
  - injection Hout as <-. by exists 0, z, [].
Qed.

Lemma outcome_of_thrown i : ∀ zones replies data sts e,
  i < length zones →
  take i replies = status_reply <$> sts →
  replies !! i = Some (Thrown e) →
  outcome_of zones replies data = Raise (VendorExn e).
Proof.
  induction i as [|i IH]; intros [|z zones] [|r0 replies] data sts e Hlt Hpre Hi;
    cbn in Hlt; try done; try lia.
  - cbn in Hi. by injection Hi as ->.
  - destruct sts as [|s sts]; [done|]. cbn in Hpre, Hi.
    injection Hpre as -> Hpre. cbn. apply (IH _ _ _ sts); [lia|done..].
Qed.

Lemma vendor_replies_stateless ws66i zones : ∀ a a',
  stateless →
  vendor_replies ws66i zones a = vendor_replies ws66i zones a'.
Proof.
  induction zones as [|z zones IH]; intros a a' Hfree; [done|]. cbn.
  pose proof (Hfree ws66i z a a') as Hz.
  destruct (zone_status ws66i z a) as [r b],
    (zone_status ws66i z a') as [r' b']. cbn in Hz. subst r'.
  f_equal. by apply IH.
Qed.

Lemma outcome_of_no_data i : ∀ zones replies data sts,
  i < length zones →
  take i replies = status_reply <$> sts →
  replies !! i = Some no_data →
  ∃ zone_id, zones !! i = Some zone_id
    ∧ outcome_of zones replies data
      = Raise (UpdateFailed (update_failed_msg zone_id)).
Proof.
  induction i as [|i IH]; intros [|z zones] [|r0 replies] data sts Hlt Hpre Hi;
    cbn in Hlt; try done; try lia.
  - cbn in Hi. injection Hi as ->. by exists z.
  - destruct sts as [|s sts]; [done|]. cbn in Hpre, Hi.
    injection Hpre as -> Hpre. cbn. apply (IH _ _ _ sts); [lia|done..].
Qed.

Lemma outcome_of_vendor_exn zones : ∀ replies data e,
  outcome_of zones replies data = Raise (VendorExn e) →
  ∃ i sts,
    take i replies = status_reply <$> sts
    ∧ replies !! i = Some (Thrown e).
Proof.
  induction zones as [|z zones IH]; intros [|[[s|]|e'] replies] data e Hout;
    try done.
  - cbn in Hout.
    destruct (IH replies (data ++ [s]) e Hout) as (i & sts & ? & ?).
    exists (S i), (s :: sts). cbn. split; [by f_equal|done].
  - injection Hout as <-. by exists 0, [].
Qed.

(** An update through the executor: the outcome and the world of the
    direct call, and one more job on the executor's record, holding the
    vendor calls of the update. *)
Lemma async_update_data_run w :
  _async_update_data w =
    ((_update_all_zones w).1,
     {| self := self (_update_all_zones w).2;
        amp := amp (_update_all_zones w).2;
        calls := calls (_update_all_zones w).2;
        executor_jobs := executor_jobs (_update_all_zones w).2
                           ++ [queried _update_all_zones w] |}).
Proof.
  unfold _async_update_data, mbind, M_bind, async_add_executor_job, await,
    queried.
  by destruct (_update_all_zones w) as [[data|e] w'].
Qed.

(** ** The claims about the coordinator *)

(** C1.  Let [replies] be what the vendor answers to the queries for
    the configured zones, asked in the order of the coordinator's zone
    list.  [_update_all_zones] asks the zones of the list in order up to
    and including the first whose reply is not a status, and
    - raises [UpdateFailed] exactly when that first reply is [None],
      which is exactly when a query it made returned [None];
    - lets an exception [e] of the vendor through, as it is, exactly
      when that first reply is the vendor raising [e], which is exactly
      when a query it made raised [e];
    - returns [data] exactly when the replies are the statuses [data],
      one for each configured zone, which is when every query it made
      returned a status.
    No other reply of the vendor is turned into an error. *)
Theorem update_failed_iff_zone_without_data w :
  let zones := _zones (self w) in
  let replies := vendor_replies (_ws66i (self w)) zones (amp w) in
  let r := (_update_all_zones w).1 in
  let tr := queried _update_all_zones w in
  tr = take (asked replies) (zip zones replies)
  ∧ (((∃ msg, r = Raise (UpdateFailed msg))
      ↔ (∃ i sts, take i replies = status_reply <$> sts
                  ∧ replies !! i = Some no_data))
     ∧ ((∃ msg, r = Raise (UpdateFailed msg))
        ↔ (∃ zone_id, (zone_id, no_data) ∈ tr)))
  ∧ (∀ e, (r = Raise (VendorExn e)
           ↔ (∃ i sts, take i replies = status_reply <$> sts
                       ∧ replies !! i = Some (Thrown e)))
          ∧ (r = Raise (VendorExn e)
             ↔ (∃ zone_id, (zone_id, Thrown e) ∈ tr)))
  ∧ (∀ data, r = Ok data ↔ replies = status_reply <$> data)
  ∧ ((∃ data, r = Ok data) ↔ (∀ c, c ∈ tr → ∃ s, c.2 = status_reply s)).
Proof.
  intros zones replies r tr.
  destruct (update_all_zones_Run w) as [Hrun _].
  assert (r = outcome_of zones replies []) as Hr
    by (subst r; by rewrite update_all_zones_outcome).
  assert (length replies = length zones) as Hlen
    by apply vendor_replies_length.
  split_and!.
  - apply update_all_zones_queried.
  - split.
    + intros [msg Hmsg]. rewrite Hr in Hmsg.
      apply outcome_of_update_failed in Hmsg
        as (i & zone_id & sts & _ & _ & Hpre & Hi).
      by exists i, sts.
    + intros (i & sts & Hpre & Hi).
      destruct (outcome_of_no_data i zones replies [] sts)
        as (zone_id & _ & Hout); [|done..|].
      { rewrite <-Hlen. by eapply lookup_lt_Some. }
      exists (update_failed_msg zone_id). by rewrite Hr.
  - by eapply Run_update_failed.
  - intros e. split; [split|].
    + intros He. rewrite Hr in He. by apply outcome_of_vendor_exn in He.
    + intros (i & sts & Hpre & Hi). rewrite Hr.
      apply (outcome_of_thrown i _ _ _ sts); [|done..].
      rewrite <-Hlen. by eapply lookup_lt_Some.
    + by eapply Run_vendor_exn.
  - intros data. split.
    + intros Hok. rewrite Hr in Hok.
      by apply outcome_of_ok in Hok as (sts & -> & ?).
    + intros Hreplies. subst r. rewrite update_all_zones_unfold.
      by rewrite (for_zone_id_all_status _ data).
  - by eapply Run_ok.
Qed.

(** C3.  [_async_update_data] does nothing but hand
    [_update_all_zones] to the executor and return what awaiting the job
    gives.  From every state: it yields the list the direct call of
    [_update_all_zones] yields from that state, and fails exactly when
    that call raises, with the same exception; it leaves the coordinator,
    the amplifier and the record of vendor calls as that call leaves
    them; and the executor has run one more job, inside which all the
    vendor calls of the update were made, whereas the direct call goes
    through no executor. *)
Theorem async_update_data_delegates w :
  ((_async_update_data w).1 = (_update_all_zones w).1
   ∧ (∀ data, (_async_update_data w).1 = Ok data
              ↔ (_update_all_zones w).1 = Ok data)
   ∧ (∀ e, (_async_update_data w).1 = Raise e
           ↔ (_update_all_zones w).1 = Raise e))
  ∧ (self (_async_update_data w).2 = self (_update_all_zones w).2
     ∧ amp (_async_update_data w).2 = amp (_update_all_zones w).2
     ∧ calls (_async_update_data w).2 = calls (_update_all_zones w).2)
  ∧ (executor_jobs (_async_update_data w).2
       = executor_jobs w ++ [queried _update_all_zones w]
     ∧ queried _async_update_data w = queried _update_all_zones w
     ∧ executor_jobs (_update_all_zones w).2 = executor_jobs w).
Proof.
  assert (executor_jobs (_update_all_zones w).2 = executor_jobs w) as Hjobs
    by by rewrite update_all_zones_outcome.
  unfold queried at 2. rewrite async_update_data_run. cbn. by rewrite Hjobs.
Qed.

(** C7.  When the vendor answers the queries for the configured zones,
    asked in the order of the coordinator's zone list, with the statuses
    [sts], none of them [None], then [_update_all_zones] returns [sts]: a
    list as long as the zone list, whose i-th element is the status
    returned to the query for the i-th zone id. *)
Theorem update_all_zones_in_order w sts :
  vendor_replies (_ws66i (self w)) (_zones (self w)) (amp w)
    = status_reply <$> sts →
  (_update_all_zones w).1 = Ok sts
  ∧ length sts = length (_zones (self w))
  ∧ (∀ i zone_id, _zones (self w) !! i = Some zone_id →
       ∃ s, sts !! i = Some s
            ∧ queried _update_all_zones w !! i = Some (zone_id, status_reply s)).
Proof.
  intros Hreplies.
  assert (length sts = length (_zones (self w))) as Hlen.
  { by rewrite <-(vendor_replies_length (_ws66i (self w)) _ (amp w)),
      Hreplies, length_fmap. }
  pose proof (for_zone_id_all_status _ sts [] w Hreplies) as Hrun.
  rewrite <-update_all_zones_unfold in Hrun.
  split_and!; [by rewrite Hrun|done|].
  intros i zone_id Hi.
  destruct (lookup_lt_is_Some_2 sts i) as [s Hs].
  { rewrite Hlen. by eapply lookup_lt_Some. }
  exists s. split; [done|].
  rewrite (queried_of_calls _ w (zip (_zones (self w)) (status_reply <$> sts)))
    by by rewrite Hrun.
  apply lookup_zip_with_Some. exists zone_id, (status_reply s).
  by rewrite list_lookup_fmap, Hs.
Qed.

(** C8.  When the i-th configured zone is the first whose [zone_status]
    is [None] (the queries before it returned statuses), the update stops
    there: it raises [UpdateFailed] with the message
    ["Failed to update zone <id>"] for that zone id and for no other,
    the zones queried are the first i+1 of the list and none after, and
    the coordinator's fields are what they were. *)
Theorem update_all_zones_short_circuits w i zone_id sts :
  _zones (self w) !! i = Some zone_id →
  take i (vendor_replies (_ws66i (self w)) (_zones (self w)) (amp w))
    = status_reply <$> sts →
  vendor_replies (_ws66i (self w)) (_zones (self w)) (amp w) !! i
    = Some no_data →
  (_update_all_zones w).1 = Raise (UpdateFailed (update_failed_msg zone_id))
  ∧ update_failed_msg zone_id = "Failed to update zone " +:+ pretty zone_id
  ∧ (∀ z, update_failed_msg z = update_failed_msg zone_id → z = zone_id)
  ∧ (queried _update_all_zones w).*1 = take (S i) (_zones (self w))
  ∧ self (_update_all_zones w).2 = self w.
Proof.
  intros Hi Hpre Hnone.
  pose proof (take_drop_middle _ _ _ Hi) as Hsplit.
  set (pre := take i (_zones (self w))) in *.
  set (post := drop (S i) (_zones (self w))) in *.
  assert (length pre = i) as Hlen.
  { apply length_take_le, Nat.lt_le_incl. by eapply lookup_lt_Some. }
  rewrite <-Hsplit, vendor_replies_app in Hpre, Hnone.
  rewrite take_app_length' in Hpre
    by by rewrite vendor_replies_length.
  rewrite lookup_app_r, vendor_replies_length, Hlen, Nat.sub_diag in Hnone
    by (rewrite vendor_replies_length; lia).
  cbn in Hnone.
  assert ((zone_status (_ws66i (self w)) zone_id
             (vendor_after (_ws66i (self w)) pre (amp w))).1 = no_data) as Hz.
  { destruct (zone_status _ _ _). cbn in *. congruence. }
  pose proof (for_zone_id_first_no_data pre zone_id post sts [] w Hpre Hz)
    as Hrun.
  rewrite Hsplit, <-update_all_zones_unfold in Hrun.
  split_and!.
  - by rewrite Hrun.
  - done.
  - unfold update_failed_msg. intros z Hz'.
    by apply (inj (String.append _)), (inj pretty) in Hz'.
  - rewrite (queried_of_calls _ w
      (zip pre (status_reply <$> sts) ++ [(zone_id, no_data)]))
      by by rewrite Hrun.
    rewrite fmap_app, fst_zip.
    + cbn. by rewrite (take_S_r _ _ zone_id).
    + rewrite length_fmap. apply (f_equal length) in Hpre.
      rewrite vendor_replies_length, length_fmap in Hpre. lia.
  - by rewrite Hrun.
Qed.

End facts.

(** *** Runs on the sample amplifier *)

Example run_three_zones :
  @_update_all_zones Samples.amplifier (Samples.world_of [11; 12; 13]%Z)
  = (Ok [(11%Z, 0); (12%Z, 1); (13%Z, 2)],
     {| self := @__init__ Samples.amplifier () [11; 12; 13]%Z;
        amp := 3;
        calls := [(11%Z, Returned (Some (11%Z, 0)));
                  (12%Z, Returned (Some (12%Z, 1)));
                  (13%Z, Returned (Some (13%Z, 2)))];
        executor_jobs := [] |}).
Proof. reflexivity. Qed.

Example run_no_data_in_the_middle :
  @_update_all_zones Samples.amplifier (Samples.world_of [11; 12; 7; 13]%Z)
  = (Raise (UpdateFailed "Failed to update zone 7"),
     {| self := @__init__ Samples.amplifier () [11; 12; 7; 13]%Z;
        amp := 3;
        calls := [(11%Z, Returned (Some (11%Z, 0)));
                  (12%Z, Returned (Some (12%Z, 1)));
                  (7%Z, Returned None)];
        executor_jobs := [] |}).
Proof. vm_compute. reflexivity. Qed.

Example run_vendor_raises_first :
  @_update_all_zones Samples.amplifier (Samples.world_of [11; 0; 7]%Z)
  = (Raise (VendorExn ("no such zone" : @VendorError Samples.amplifier)),
     {| self := @__init__ Samples.amplifier () [11; 0; 7]%Z;
        amp := 2;
        calls := [(11%Z, Returned (Some (11%Z, 0)));
                  (0%Z, Thrown "no such zone")];
        executor_jobs := [] |}).
Proof. reflexivity. Qed.

Example run_through_executor :
  (@_async_update_data Samples.amplifier
     (Samples.world_of [11; 12; 7; 13]%Z))
  = (Raise (UpdateFailed "Failed to update zone 7"),
     {| self := @__init__ Samples.amplifier () [11; 12; 7; 13]%Z;
        amp := 3;
        calls := [(11%Z, Returned (Some (11%Z, 0)));
                  (12%Z, Returned (Some (12%Z, 1)));
                  (7%Z, Returned None)];
        executor_jobs := [[(11%Z, Returned (Some (11%Z, 0)));
                           (12%Z, Returned (Some (12%Z, 1)));
                           (7%Z, Returned None)]] |}).
Proof. vm_compute. reflexivity. Qed.

Example run_negative_zone_message :
  update_failed_msg (-3) = "Failed to update zone -3".
Proof. vm_compute. reflexivity. Qed.

(** C7 at the zones 11, 12, 13 of the sample amplifier. *)
Lemma update_all_zones_in_order_witness :
  (@_update_all_zones Samples.amplifier
     (Samples.world_of [11; 12; 13]%Z)).1
    = Ok [(11%Z, 0); (12%Z, 1); (13%Z, 2)]
  ∧ length [(11%Z, 0); (12%Z, 1); (13%Z, 2)] = length [11; 12; 13]%Z
  ∧ (∀ i zone_id, [11; 12; 13]%Z !! i = Some zone_id →
       ∃ s, [(11%Z, 0); (12%Z, 1); (13%Z, 2)] !! i = Some s
            ∧ queried (@_update_all_zones Samples.amplifier)
                (Samples.world_of [11; 12; 13]%Z) !! i
              = Some (zone_id, @status_reply Samples.amplifier s)).
Proof.
  apply (@update_all_zones_in_order Samples.amplifier
           (Samples.world_of [11; 12; 13]%Z)
           [(11%Z, 0); (12%Z, 1); (13%Z, 2)]).
  reflexivity.
Defined.

(** C8 at the zones 11, 12, 7, 13: zone 7, at position 2, has no data. *)
Lemma update_all_zones_short_circuits_witness :
  (@_update_all_zones Samples.amplifier
     (Samples.world_of [11; 12; 7; 13]%Z)).1
    = Raise (UpdateFailed (update_failed_msg 7))
  ∧ update_failed_msg 7 = "Failed to update zone " +:+ pretty 7%Z
  ∧ (∀ z, update_failed_msg z = update_failed_msg 7 → z = 7%Z)
  ∧ (queried (@_update_all_zones Samples.amplifier)
       (Samples.world_of [11; 12; 7; 13]%Z)).*1
    = take 3 [11; 12; 7; 13]%Z
  ∧ self (@_update_all_zones Samples.amplifier
            (Samples.world_of [11; 12; 7; 13]%Z)).2
    = self (Samples.world_of [11; 12; 7; 13]%Z).
Proof.
  apply (@update_all_zones_short_circuits Samples.amplifier
           (Samples.world_of [11; 12; 7; 13]%Z) 2 7%Z
           [(11%Z, 0); (12%Z, 1)]);
    reflexivity.
Defined.

End Ws66iFacts.

Module NexiaFacts.
Import Nexia.

Section facts.
Context `{Const} `{Ids}.

Implicit Types (hs : list HostCall) (n u : string)
  (c : NexiaDataUpdateCoordinator)
  (thermostat : NexiaThermostat.t) (zone : NexiaThermostatZone.t).

(** A method that only reads, seen through [super], only reads. *)
Lemma super_frame {Child Parent A} (up : Child → Parent)
    (down : Parent → Child → Child) (m : Method Parent A) :
  (∀ e, down (up e) e = e) →
  (∀ s, (m s).2 = s) →
  ∀ s, (super up down m s).2 = s.
Proof.
  intros Heta Hm [e hs]. unfold super. cbn.
  specialize (Hm {| me := up e; hass := hs |}).
  destruct (m _) as [a s']. cbn in *. subst s'. cbn. by rewrite Heta.
Qed.

Lemma thermostat_with_base (e : NexiaThermostatEntity.t) :
  NexiaThermostatEntity.with_base (NexiaThermostatEntity.base e) e = e.
Proof. by destruct e. Qed.

Lemma zone_with_base (e : NexiaThermostatZoneEntity.t) :
  NexiaThermostatZoneEntity.with_base (NexiaThermostatZoneEntity.base e) e = e.
Proof. by destruct e. Qed.

Lemma attr_frame {Self A} (field : Self → A) s : (attr field s).2 = s.
Proof. done. Qed.

Lemma thermostat_device_info_frame s :
  (NexiaThermostatEntity.device_info s).2 = s.
Proof. done. Qed.

Lemma zone_device_info_run (e : NexiaThermostatZoneEntity.t) hs :
  NexiaThermostatZoneEntity.device_info {| me := e; hass := hs |} =
    (dict_update
       (NexiaThermostatEntity.device_info
          {| me := NexiaThermostatZoneEntity.base e; hass := hs |}).1
       (NexiaThermostatZoneEntity.zone_entries
          (NexiaThermostatZoneEntity._zone e)),
     {| me := e; hass := hs |}).
Proof. by destruct e as [b z]. Qed.

Lemma zone_device_info_frame s :
  (NexiaThermostatZoneEntity.device_info s).2 = s.
Proof. destruct s as [e hs]. by rewrite zone_device_info_run. Qed.

Lemma zone_entries_other zone (k : string) :
  k ∉ ["identifiers"; "name"; "suggested_area"; "via_device"] →
  NexiaThermostatZoneEntity.zone_entries zone !! k = None.
Proof.
  intros Hk. unfold NexiaThermostatZoneEntity.zone_entries.
  rewrite !lookup_insert_ne, lookup_empty; [done|..];
    intros <-; apply Hk; set_solver.
Qed.

(** ** The claims about the entities *)

(** C2, as amended.  The name of a [NexiaThermostatZoneEntity] is the
    name given to its constructor, whatever the zone is called: it is the
    zone's display name exactly when that is the name the caller gave.
    The zone's display name is what [device_info] reports under
    ["name"]. *)
Theorem zone_entity_name_is_given_name c zone n u hs :
  let s := {| me := NexiaThermostatZoneEntity.__init__ c zone n u;
              hass := hs |} in
  (NexiaThermostatZoneEntity.name s).1 = n
  ∧ ((NexiaThermostatZoneEntity.name s).1 = NexiaThermostatZone.get_name zone
     ↔ n = NexiaThermostatZone.get_name zone)
  ∧ (NexiaThermostatZoneEntity.device_info s).1 !! "name"
    = Some (VStr (NexiaThermostatZone.get_name zone)).
Proof. done. Qed.

(** C4.  The [unique_id] and [name] properties of a [NexiaEntity] return
    the [unique_id] and the [name] its constructor was given; so do
    they on the two subclasses, whose constructors hand both on. *)
Theorem nexia_entity_pass_through c thermostat zone n u hs :
  let e := {| me := NexiaEntity.__init__ c n u; hass := hs |} in
  let t := {| me := NexiaThermostatEntity.__init__ c thermostat n u;
              hass := hs |} in
  let z := {| me := NexiaThermostatZoneEntity.__init__ c zone n u;
              hass := hs |} in
  ((NexiaEntity.unique_id e).1 = u ∧ (NexiaEntity.name e).1 = n)
  ∧ ((NexiaThermostatEntity.unique_id t).1 = u
     ∧ (NexiaThermostatEntity.name t).1 = n)
  ∧ ((NexiaThermostatZoneEntity.unique_id z).1 = u
     ∧ (NexiaThermostatZoneEntity.name z).1 = n).
Proof. done. Qed.

(** C5.  [_signal_thermostat_update] makes one host call, sending the
    signal ["{SIGNAL_THERMOSTAT_UPDATE}-{thermostat_id}"];
    [async_added_to_hass] connects [async_write_ha_state] to the signal
    of that very name.  In the same way [_signal_zone_update] sends
    ["{SIGNAL_ZONE_UPDATE}-{zone_id}"], the name the zone entity
    connects [async_write_ha_state] to, after what its parent
    connects. *)
Theorem update_signals_match
    (t : NexiaThermostatEntity.t) (z : NexiaThermostatZoneEntity.t) hs :
  let tsig e := SIGNAL_THERMOSTAT_UPDATE +:+ "-" +:+ format_id
    (NexiaThermostat.thermostat_id (NexiaThermostatEntity._thermostat e)) in
  let zsig := SIGNAL_ZONE_UPDATE +:+ "-" +:+ format_id
    (NexiaThermostatZone.zone_id (NexiaThermostatZoneEntity._zone z)) in
  (hass (NexiaThermostatEntity._signal_thermostat_update
           {| me := t; hass := hs |}).2
     = hs ++ [async_dispatcher_send (tsig t)]
   ∧ hass (NexiaThermostatEntity.async_added_to_hass
             {| me := t; hass := hs |}).2
     = hs ++ [CoordinatorEntity_async_added_to_hass;
              async_dispatcher_connect (tsig t) async_write_ha_state;
              async_on_remove (tsig t) async_write_ha_state])
  ∧ (hass (NexiaThermostatZoneEntity._signal_zone_update
             {| me := z; hass := hs |}).2
       = hs ++ [async_dispatcher_send zsig]
     ∧ hass (NexiaThermostatZoneEntity.async_added_to_hass
               {| me := z; hass := hs |}).2
       = hs ++ [CoordinatorEntity_async_added_to_hass;
                async_dispatcher_connect
                  (tsig (NexiaThermostatZoneEntity.base z))
                  async_write_ha_state;
                async_on_remove (tsig (NexiaThermostatZoneEntity.base z))
                  async_write_ha_state;
                async_dispatcher_connect zsig async_write_ha_state;
                async_on_remove zsig async_write_ha_state]).
Proof.
  destruct t as [tb tt], z as [[zb zt] zz].
  unfold NexiaThermostatZoneEntity.async_added_to_hass,
    NexiaThermostatZoneEntity._signal_zone_update,
    NexiaThermostatEntity.async_added_to_hass,
    NexiaThermostatEntity._signal_thermostat_update,
    NexiaThermostatZoneEntity.zone_signal,
    NexiaThermostatEntity.thermostat_signal,
    super, host, attr, mbind, Method_bind.
  cbn. rewrite <-!app_assoc. done.
Qed.

(** C6.  The properties only read.  Evaluating [unique_id], [name] or
    [extra_state_attributes] on a [NexiaEntity], and these or
    [device_info] on a [NexiaThermostatEntity] or a
    [NexiaThermostatZoneEntity], leaves the object as it was, field by
    field (stored name, unique id, coordinator, thermostat and zone
    handle), and makes no call into the host. *)
Theorem properties_read_only :
  ((∀ s, (NexiaEntity.unique_id s).2 = s)
   ∧ (∀ s, (NexiaEntity.name s).2 = s)
   ∧ (∀ s, (NexiaEntity.extra_state_attributes s).2 = s))
  ∧ ((∀ s, (NexiaThermostatEntity.unique_id s).2 = s)
     ∧ (∀ s, (NexiaThermostatEntity.name s).2 = s)
     ∧ (∀ s, (NexiaThermostatEntity.extra_state_attributes s).2 = s)
     ∧ (∀ s, (NexiaThermostatEntity.device_info s).2 = s))
  ∧ ((∀ s, (NexiaThermostatZoneEntity.unique_id s).2 = s)
     ∧ (∀ s, (NexiaThermostatZoneEntity.name s).2 = s)
     ∧ (∀ s, (NexiaThermostatZoneEntity.extra_state_attributes s).2 = s)
     ∧ (∀ s, (NexiaThermostatZoneEntity.device_info s).2 = s)).
Proof.
  assert (∀ s, (NexiaThermostatEntity.unique_id s).2 = s) as Hu
    by by apply super_frame; [apply thermostat_with_base|].
  assert (∀ s, (NexiaThermostatEntity.name s).2 = s) as Hn
    by by apply super_frame; [apply thermostat_with_base|].
  assert (∀ s, (NexiaThermostatEntity.extra_state_attributes s).2 = s) as Hx
    by by apply super_frame; [apply thermostat_with_base|].
  split_and!;
    auto using thermostat_device_info_frame, zone_device_info_frame;
    solve [done | apply super_frame; [apply zone_with_base|done]].
Qed.

(** C9.  The [device_info] of a [NexiaThermostatZoneEntity] is its
    parent's with four entries set from the zone: ["identifiers"] from
    the zone id, ["name"] and ["suggested_area"] both the zone's
    [get_name()], ["via_device"] the parent thermostat.  Every other
    key is as the parent class produced it; in particular
    ["configuration_url"], ["manufacturer"], ["model"] and
    ["sw_version"] keep their thermostat-derived values. *)
Theorem zone_device_info_overrides c zone n u hs :
  let e := NexiaThermostatZoneEntity.__init__ c zone n u in
  let parent := NexiaThermostatZoneEntity.base e in
  let d := (NexiaThermostatZoneEntity.device_info
              {| me := e; hass := hs |}).1 in
  let d0 := (NexiaThermostatEntity.device_info
               {| me := parent; hass := hs |}).1 in
  (d !! "identifiers"
     = Some (VIdSet {[ (DOMAIN, NexiaThermostatZone.zone_id zone) ]})
   ∧ d !! "name" = Some (VStr (NexiaThermostatZone.get_name zone))
   ∧ d !! "suggested_area" = Some (VStr (NexiaThermostatZone.get_name zone))
   ∧ d !! "via_device"
     = Some (VPair (DOMAIN, NexiaThermostat.thermostat_id
                              (NexiaThermostatEntity._thermostat parent))))
  ∧ (∀ k, k ∉ ["identifiers"; "name"; "suggested_area"; "via_device"] →
       d !! k = d0 !! k)
  ∧ (d !! "configuration_url" = Some (VStr (root_url (nexia_home c)))
     ∧ d !! "manufacturer" = Some (VStr MANUFACTURER)
     ∧ d !! "model"
       = Some (VStr (NexiaThermostat.get_model
                       (NexiaThermostatZone.thermostat zone)))
     ∧ d !! "sw_version"
       = Some (VStr (NexiaThermostat.get_firmware
                       (NexiaThermostatZone.thermostat zone)))).
Proof.
  intros e parent d d0.
  split_and!; try done.
  intros k Hk. subst d d0. rewrite zone_device_info_run. cbn [fst].
  unfold dict_update. by rewrite lookup_union_r by by apply zone_entries_other.
Qed.

End facts.

(** The amended C2 is needed: on the thermostat's zone "Upstairs", an
    entity constructed with the name "Upstairs Temperature" is not named
    after the zone. *)
Lemma zone_entity_name_differs_from_zone_name :
  (@NexiaThermostatZoneEntity.name Samples.int_ids
     {| me := @NexiaThermostatZoneEntity.__init__ Samples.int_ids
                Samples.home Samples.upstairs
                "Upstairs Temperature" "83261002_temperature";
        hass := [] |}).1
  ≠ NexiaThermostatZone.get_name Samples.upstairs.
Proof. done. Qed.

(** *** The sample zone entity at work *)

Example upstairs_device_info :
  let d := (@NexiaThermostatZoneEntity.device_info
              Samples.nexia_const Samples.int_ids
              {| me := @NexiaThermostatZoneEntity.__init__ Samples.int_ids
                         Samples.home Samples.upstairs
                         "Upstairs Temperature" "83261002_temperature";
                 hass := [] |}).1 in
  (d !!.) <$> ["configuration_url"; "manufacturer"; "model"; "name";
               "suggested_area"; "sw_version"; "via_device"; "entry_type"]
  = [Some (@VStr Samples.int_ids "https://www.mynexia.com");
     Some (@VStr Samples.int_ids "Trane");
     Some (@VStr Samples.int_ids "XL1050");
     Some (@VStr Samples.int_ids "Upstairs");
     Some (@VStr Samples.int_ids "Upstairs");
     Some (@VStr Samples.int_ids "5.9.1");
     Some (@VPair Samples.int_ids ("nexia", 2059661%Z));
     None].
Proof. vm_compute. reflexivity. Qed.

Example upstairs_signals :
  hass (@NexiaThermostatZoneEntity.async_added_to_hass
          Samples.nexia_const Samples.int_ids
          {| me := @NexiaThermostatZoneEntity.__init__ Samples.int_ids
                     Samples.home Samples.upstairs "Upstairs" "83261002";
             hass := [] |}).2
  = [CoordinatorEntity_async_added_to_hass;
     async_dispatcher_connect "NEXIA_THERMOSTAT_UPDATE-2059661"
       async_write_ha_state;
     async_on_remove "NEXIA_THERMOSTAT_UPDATE-2059661" async_write_ha_state;
     async_dispatcher_connect "NEXIA_ZONE_UPDATE-83261002"
       async_write_ha_state;
     async_on_remove "NEXIA_ZONE_UPDATE-83261002" async_write_ha_state].
Proof. vm_compute. reflexivity. Qed.

End NexiaFacts.

(** * Part III: further properties of the code *)

Module Ws66iMore.
Import Ws66i Ws66iReplies Ws66iFacts.

Section more.
Context `{Vendor}.

Implicit Types (w : World) (zones : list Z)
  (data sts : list ZoneStatus)
  (replies : list (Reply ZoneStatus VendorError)).

(** ** Properties *)

(** X1.  Whatever the outcome, the zones [_update_all_zones] asks the
    vendor about are an initial part of the coordinator's zone list, in
    the order of the list: never a zone that is not configured, never
    out of order, never more queries than zones. *)
Theorem queries_follow_zone_list w :
  (queried _update_all_zones w).*1 `prefix_of` _zones (self w)
  ∧ length (queried _update_all_zones w) ≤ length (_zones (self w)).
Proof.
  pose proof (update_all_zones_queried_zones w) as Hq. cbn zeta in Hq.
  split.
  - rewrite Hq. apply prefix_take.
  - rewrite <-(length_fmap fst), Hq, length_take. lia.
Qed.

(** X2.  An update, synchronous or through the executor, never changes
    the coordinator's fields and never drops a recorded vendor call,
    whether it returns, raises [UpdateFailed] or lets a vendor
    exception through. *)
Theorem update_keeps_coordinator w :
  (self (_update_all_zones w).2 = self w
   ∧ calls w `prefix_of` calls (_update_all_zones w).2)
  ∧ (self (_async_update_data w).2 = self w
     ∧ calls w `prefix_of` calls (_async_update_data w).2).
Proof.
  rewrite async_update_data_run, update_all_zones_outcome. cbn.
  split; (split; [done|by apply prefix_app_r]).
Qed.

(** X3.  A list returned by [_update_all_zones] is never partial: when
    it returns [data], every configured zone was asked, in order, the
    vendor answered each with a status, and [data] are those statuses,
    one per zone. *)
Theorem returned_list_is_complete w data :
  (_update_all_zones w).1 = Ok data →
  vendor_replies (_ws66i (self w)) (_zones (self w)) (amp w)
    = status_reply <$> data
  ∧ length data = length (_zones (self w))
  ∧ (queried _update_all_zones w).*1 = _zones (self w).
Proof.
  intros Hok. rewrite update_all_zones_outcome in Hok. cbn in Hok.
  apply outcome_of_ok in Hok as (sts & -> & Hreplies);
    [|by rewrite vendor_replies_length].
  assert (length sts = length (_zones (self w))) as Hlen.
  { by rewrite <-(vendor_replies_length (_ws66i (self w)) _ (amp w)),
      Hreplies, length_fmap. }
  split_and!; [done..|].
  pose proof (update_all_zones_queried_zones w) as Hq. cbn zeta in Hq.
  rewrite Hq, Hreplies, asked_all_status, Hlen. apply take_ge. lia.
Qed.

(** X4.  When the first reply that is not a status is an exception of
    the vendor, raised for the i-th zone, that exception leaves
    [_update_all_zones] as it is, and is not turned into
    [UpdateFailed], even if later zones have no data; the zones asked
    are the first i+1 and the coordinator is unchanged. *)
Theorem vendor_exception_propagates w i zone_id sts e :
  _zones (self w) !! i = Some zone_id →
  take i (vendor_replies (_ws66i (self w)) (_zones (self w)) (amp w))
    = status_reply <$> sts →
  vendor_replies (_ws66i (self w)) (_zones (self w)) (amp w) !! i
    = Some (Thrown e) →
  (_update_all_zones w).1 = Raise (VendorExn e)
  ∧ (queried _update_all_zones w).*1 = take (S i) (_zones (self w))
  ∧ self (_update_all_zones w).2 = self w.
Proof.
  intros Hi Hpre Hthrown.
  pose proof (update_all_zones_queried_zones w) as Hq. cbn zeta in Hq.
  rewrite Hq, update_all_zones_outcome. cbn. split_and!; [|f_equal|done].
  - apply (outcome_of_thrown i _ _ _ sts); [|done..].
    by eapply lookup_lt_Some.
  - by apply (asked_first_other i _ sts (Thrown e)).
Qed.

(** X5.  An [UpdateFailed] raised by [_update_all_zones] always names a
    configured zone: its message is ["Failed to update zone <id>"] for
    the zone id at some position i of the zone list, the queries before
    position i were answered with statuses and the one at i with
    [None]. *)
Theorem update_failed_names_first_missing_zone w msg :
  (_update_all_zones w).1 = Raise (UpdateFailed msg) →
  ∃ i zone_id sts,
    _zones (self w) !! i = Some zone_id
    ∧ msg = update_failed_msg zone_id
    ∧ take i (vendor_replies (_ws66i (self w)) (_zones (self w)) (amp w))
      = status_reply <$> sts
    ∧ vendor_replies (_ws66i (self w)) (_zones (self w)) (amp w) !! i
      = Some no_data.
Proof.
  intros Hfail. rewrite update_all_zones_outcome in Hfail. cbn in Hfail.
  by apply outcome_of_update_failed in Hfail.
Qed.

(** X6.  Polling keeps no state of its own: against a vendor whose
    replies depend on the zone asked only, a second update right after
    the first asks the same zones and ends the same way. *)
Theorem repeated_update_agrees w :
  stateless →
  (_update_all_zones (_update_all_zones w).2).1 = (_update_all_zones w).1
  ∧ queried _update_all_zones (_update_all_zones w).2
    = queried _update_all_zones w.
Proof.
  intros Hfree. rewrite !update_all_zones_queried.
  rewrite (update_all_zones_outcome (_update_all_zones w).2).
  rewrite !update_all_zones_outcome. cbn.
  by rewrite (vendor_replies_stateless _ _ _ (amp w)).
Qed.

End more.

(** X3 at the zones 11, 12, 13 of the sample amplifier. *)
Lemma returned_list_is_complete_witness :
  vendor_replies (_ws66i (self (Samples.world_of [11; 12; 13]%Z)))
      (_zones (self (Samples.world_of [11; 12; 13]%Z)))
      (amp (Samples.world_of [11; 12; 13]%Z))
    = @status_reply Samples.amplifier <$> [(11%Z, 0); (12%Z, 1); (13%Z, 2)]
  ∧ length [(11%Z, 0); (12%Z, 1); (13%Z, 2)]
    = length (_zones (self (Samples.world_of [11; 12; 13]%Z)))
  ∧ (queried (@_update_all_zones Samples.amplifier)
       (Samples.world_of [11; 12; 13]%Z)).*1
    = _zones (self (Samples.world_of [11; 12; 13]%Z)).
Proof.
  apply (@returned_list_is_complete Samples.amplifier
           (Samples.world_of [11; 12; 13]%Z)
           [(11%Z, 0); (12%Z, 1); (13%Z, 2)]).
  reflexivity.
Defined.

(** X4 at the zones 11, 0, 7: zone 0 makes the vendor raise, zone 7,
    which has no data, is never asked. *)
Lemma vendor_exception_propagates_witness :
  (@_update_all_zones Samples.amplifier (Samples.world_of [11; 0; 7]%Z)).1
    = Raise (VendorExn ("no such zone" : @VendorError Samples.amplifier))
  ∧ (queried (@_update_all_zones Samples.amplifier)
       (Samples.world_of [11; 0; 7]%Z)).*1
    = take 2 (_zones (self (Samples.world_of [11; 0; 7]%Z)))
  ∧ self (@_update_all_zones Samples.amplifier
            (Samples.world_of [11; 0; 7]%Z)).2
    = self (Samples.world_of [11; 0; 7]%Z).
Proof.
  apply (@vendor_exception_propagates Samples.amplifier
           (Samples.world_of [11; 0; 7]%Z) 1 0%Z [(11%Z, 0)]);
    reflexivity.
Defined.

(** X5 at the zones 11, 12, 7, 13. *)
Lemma update_failed_names_first_missing_zone_witness :
  ∃ i zone_id sts,
    _zones (self (Samples.world_of [11; 12; 7; 13]%Z)) !! i = Some zone_id
    ∧ "Failed to update zone 7" = update_failed_msg zone_id
    ∧ take i (vendor_replies
                (_ws66i (self (Samples.world_of [11; 12; 7; 13]%Z)))
                (_zones (self (Samples.world_of [11; 12; 7; 13]%Z)))
                (amp (Samples.world_of [11; 12; 7; 13]%Z)))
      = @status_reply Samples.amplifier <$> sts
    ∧ vendor_replies
        (_ws66i (self (Samples.world_of [11; 12; 7; 13]%Z)))
        (_zones (self (Samples.world_of [11; 12; 7; 13]%Z)))
        (amp (Samples.world_of [11; 12; 7; 13]%Z)) !! i
      = Some (@no_data Samples.amplifier).
Proof.
  apply (@update_failed_names_first_missing_zone Samples.amplifier
           (Samples.world_of [11; 12; 7; 13]%Z) "Failed to update zone 7").
  vm_compute. reflexivity.
Defined.

(** X6 on the amplifier with fixed replies, zones 11, 7, 12. *)
Lemma repeated_update_agrees_witness :
  (@_update_all_zones Samples.fixed_amplifier
     (@_update_all_zones Samples.fixed_amplifier
        (Samples.fixed_world_of [11; 7; 12]%Z)).2).1
    = (@_update_all_zones Samples.fixed_amplifier
         (Samples.fixed_world_of [11; 7; 12]%Z)).1
  ∧ queried (@_update_all_zones Samples.fixed_amplifier)
      (@_update_all_zones Samples.fixed_amplifier
         (Samples.fixed_world_of [11; 7; 12]%Z)).2
    = queried (@_update_all_zones Samples.fixed_amplifier)
        (Samples.fixed_world_of [11; 7; 12]%Z).
Proof.
  apply (@repeated_update_agrees Samples.fixed_amplifier
           (Samples.fixed_world_of [11; 7; 12]%Z)).
  intros ws66i zone_id a a'. reflexivity.
Defined.

(** The sample amplifier counts its queries into the statuses: there a
    second update returns other statuses than the first. *)
Example repeated_update_on_counting_amplifier :
  (@_update_all_zones Samples.amplifier
     (@_update_all_zones Samples.amplifier
        (Samples.world_of [11; 12]%Z)).2).1
  = Ok [(11%Z, 2); (12%Z, 3)].
Proof. reflexivity. Qed.

End Ws66iMore.

Module NexiaMore.
Import Nexia.

(** Two strings with a common extension: one is the beginning of the
    other. *)
Lemma append_eq_prefix (a b s t : string) :
  a +:+ s = b +:+ t → String.prefix a b = true ∨ String.prefix b a = true.
Proof.
  revert b. induction a as [|c a IH]; intros [|c' b] Heq; cbn; auto.
  cbn in Heq. injection Heq as -> Heq.
  destruct (Ascii.ascii_dec c' c') as [_|?]; [by apply IH|done].
Qed.

Section more.
Context `{Const} `{Ids}.

Implicit Types (hs : list HostCall) (n u : string)
  (c : NexiaDataUpdateCoordinator)
  (thermostat : NexiaThermostat.t) (zone : NexiaThermostatZone.t).

(** X7.  The device entry of a thermostat entity has exactly the six
    keys [configuration_url], [identifiers], [manufacturer], [model],
    [name], [sw_version]; that of a zone entity has these and
    [suggested_area] and [via_device], and no other. *)
Theorem device_info_keys
    (t : NexiaThermostatEntity.t) (z : NexiaThermostatZoneEntity.t) hs :
  dom (NexiaThermostatEntity.device_info {| me := t; hass := hs |}).1
    =@{gset string}
    list_to_set ["configuration_url"; "identifiers"; "manufacturer";
                 "model"; "name"; "sw_version"]
  ∧ dom (NexiaThermostatZoneEntity.device_info {| me := z; hass := hs |}).1
    =@{gset string}
    list_to_set ["configuration_url"; "identifiers"; "manufacturer";
                 "model"; "name"; "sw_version";
                 "suggested_area"; "via_device"].
Proof.
  assert (dom (NexiaThermostatEntity.device_info {| me := t; hass := hs |}).1
    =@{gset string}
    list_to_set ["configuration_url"; "identifiers"; "manufacturer";
                 "model"; "name"; "sw_version"]) as Ht.
  { unfold NexiaThermostatEntity.device_info, attr, mbind, Method_bind,
      mret, Method_ret. cbn.
    rewrite !dom_insert_L, dom_empty_L. set_solver. }
  split; [done|].
  rewrite NexiaFacts.zone_device_info_run. cbn [fst]. unfold dict_update.
  rewrite dom_union_L.
  assert (dom (NexiaThermostatEntity.device_info
                 {| me := NexiaThermostatZoneEntity.base z; hass := hs |}).1
    =@{gset string}
    list_to_set ["configuration_url"; "identifiers"; "manufacturer";
                 "model"; "name"; "sw_version"]) as ->.
  { unfold NexiaThermostatEntity.device_info, attr, mbind, Method_bind,
      mret, Method_ret. cbn.
    rewrite !dom_insert_L, dom_empty_L. set_solver. }
  unfold NexiaThermostatZoneEntity.zone_entries.
  rewrite !dom_insert_L, dom_empty_L. set_solver.
Qed.

(** X8.  The device of a zone entity hangs under the device of its
    thermostat: the pair it reports as [via_device] is the one
    identifier in the [identifiers] of any thermostat entity built on
    the zone's thermostat, while its own [identifiers] hold the zone id
    instead. *)
Theorem zone_via_device_is_thermostat_identifier
    c c' zone n u n' u' hs hs' :
  let z := {| me := NexiaThermostatZoneEntity.__init__ c zone n u;
              hass := hs |} in
  let t := {| me := NexiaThermostatEntity.__init__ c'
                      (NexiaThermostatZone.thermostat zone) n' u';
              hass := hs' |} in
  let link := (DOMAIN, NexiaThermostat.thermostat_id
                         (NexiaThermostatZone.thermostat zone)) in
  (NexiaThermostatZoneEntity.device_info z).1 !! "via_device"
    = Some (VPair link)
  ∧ (NexiaThermostatEntity.device_info t).1 !! "identifiers"
    = Some (VIdSet {[ link ]})
  ∧ (NexiaThermostatZoneEntity.device_info z).1 !! "identifiers"
    = Some (VIdSet {[ (DOMAIN, NexiaThermostatZone.zone_id zone) ]}).
Proof. done. Qed.

(** X9.  When the formatting of ids is one-to-one, so are the signal
    names: two thermostats share an update signal only if they have the
    same id, and so for two zones. *)
Theorem signals_tell_ids_apart
    (t1 t2 : NexiaThermostat.t) (z1 z2 : NexiaThermostatZone.t) :
  (∀ a b : Id, format_id a = format_id b → a = b) →
  (NexiaThermostatEntity.thermostat_signal t1
     = NexiaThermostatEntity.thermostat_signal t2 →
   NexiaThermostat.thermostat_id t1 = NexiaThermostat.thermostat_id t2)
  ∧ (NexiaThermostatZoneEntity.zone_signal z1
       = NexiaThermostatZoneEntity.zone_signal z2 →
     NexiaThermostatZone.zone_id z1 = NexiaThermostatZone.zone_id z2).
Proof.
  intros Hinj.
  unfold NexiaThermostatEntity.thermostat_signal,
    NexiaThermostatZoneEntity.zone_signal.
  split; intros Heq; apply Hinj;
    by apply (inj (String.append _)), (inj (String.append _)) in Heq.
Qed.

(** X10.  When neither of [SIGNAL_THERMOSTAT_UPDATE] and
    [SIGNAL_ZONE_UPDATE] is the beginning of the other, no thermostat
    signal is ever a zone signal, whatever the ids: an update sent for a
    zone does not reach the listeners of a thermostat by accident. *)
Theorem thermostat_and_zone_signals_differ
    (t : NexiaThermostat.t) (z : NexiaThermostatZone.t) :
  String.prefix SIGNAL_THERMOSTAT_UPDATE SIGNAL_ZONE_UPDATE = false →
  String.prefix SIGNAL_ZONE_UPDATE SIGNAL_THERMOSTAT_UPDATE = false →
  NexiaThermostatEntity.thermostat_signal t
  ≠ NexiaThermostatZoneEntity.zone_signal z.
Proof.
  intros Htz Hzt Heq.
  unfold NexiaThermostatEntity.thermostat_signal,
    NexiaThermostatZoneEntity.zone_signal in Heq.
  apply append_eq_prefix in Heq as [Hp|Hp]; congruence.
Qed.

(** X11.  A thermostat update signalled by one zone entity reaches the
    other zone entities of the same thermostat: the signal
    [_signal_thermostat_update] sends from a zone entity is the first
    one that [async_added_to_hass] of any zone entity on a thermostat
    with the same id connects [async_write_ha_state] to. *)
Theorem thermostat_update_reaches_sibling_zones
    c1 c2 zone1 zone2 n1 u1 n2 u2 hs1 hs2 :
  NexiaThermostat.thermostat_id (NexiaThermostatZone.thermostat zone1)
    = NexiaThermostat.thermostat_id (NexiaThermostatZone.thermostat zone2) →
  let sig := NexiaThermostatEntity.thermostat_signal
               (NexiaThermostatZone.thermostat zone1) in
  let zsig := NexiaThermostatZoneEntity.zone_signal zone2 in
  hass (NexiaThermostatZoneEntity._signal_thermostat_update
          {| me := NexiaThermostatZoneEntity.__init__ c1 zone1 n1 u1;
             hass := hs1 |}).2
    = hs1 ++ [async_dispatcher_send sig]
  ∧ hass (NexiaThermostatZoneEntity.async_added_to_hass
            {| me := NexiaThermostatZoneEntity.__init__ c2 zone2 n2 u2;
               hass := hs2 |}).2
    = hs2 ++ [CoordinatorEntity_async_added_to_hass;
              async_dispatcher_connect sig async_write_ha_state;
              async_on_remove sig async_write_ha_state;
              async_dispatcher_connect zsig async_write_ha_state;
              async_on_remove zsig async_write_ha_state].
Proof.
  intros Hid sig zsig. subst sig zsig.
  unfold NexiaThermostatZoneEntity.async_added_to_hass,
    NexiaThermostatZoneEntity._signal_thermostat_update,
    NexiaThermostatEntity.async_added_to_hass,
    NexiaThermostatEntity._signal_thermostat_update,
    NexiaThermostatEntity.thermostat_signal,
    super, host, attr, mbind, Method_bind.
  cbn. rewrite Hid, <-!app_assoc. done.
Qed.

End more.

(** X9 for integer ids written in decimal. *)
Lemma signals_tell_ids_apart_witness :
  (@NexiaThermostatEntity.thermostat_signal
       Samples.nexia_const Samples.int_ids Samples.hallway
     = @NexiaThermostatEntity.thermostat_signal
         Samples.nexia_const Samples.int_ids Samples.hallway →
   NexiaThermostat.thermostat_id Samples.hallway
     = NexiaThermostat.thermostat_id Samples.hallway)
  ∧ (@NexiaThermostatZoneEntity.zone_signal
         Samples.nexia_const Samples.int_ids Samples.upstairs
       = @NexiaThermostatZoneEntity.zone_signal
           Samples.nexia_const Samples.int_ids Samples.downstairs →
     NexiaThermostatZone.zone_id Samples.upstairs
       = NexiaThermostatZone.zone_id Samples.downstairs).
Proof.
  apply (@signals_tell_ids_apart Samples.nexia_const Samples.int_ids).
  intros a b. apply (inj (pretty : Z → string)).
Defined.

(** X10 for the sample constants. *)
Lemma thermostat_and_zone_signals_differ_witness :
  @NexiaThermostatEntity.thermostat_signal
    Samples.nexia_const Samples.int_ids Samples.hallway
  ≠ @NexiaThermostatZoneEntity.zone_signal
      Samples.nexia_const Samples.int_ids Samples.upstairs.
Proof.
  apply (@thermostat_and_zone_signals_differ
           Samples.nexia_const Samples.int_ids); reflexivity.
Defined.

(** X11 for the two sample zones of the hallway thermostat. *)
Lemma thermostat_update_reaches_sibling_zones_witness :
  hass (@NexiaThermostatZoneEntity._signal_thermostat_update
          Samples.nexia_const Samples.int_ids
          {| me := @NexiaThermostatZoneEntity.__init__ Samples.int_ids
                     Samples.home Samples.upstairs "Upstairs" "83261002";
             hass := [] |}).2
    = [] ++ [async_dispatcher_send "NEXIA_THERMOSTAT_UPDATE-2059661"]
  ∧ hass (@NexiaThermostatZoneEntity.async_added_to_hass
            Samples.nexia_const Samples.int_ids
            {| me := @NexiaThermostatZoneEntity.__init__ Samples.int_ids
                       Samples.home Samples.downstairs
                       "Downstairs" "83261005";
               hass := [] |}).2
    = [] ++ [CoordinatorEntity_async_added_to_hass;
             async_dispatcher_connect "NEXIA_THERMOSTAT_UPDATE-2059661"
               async_write_ha_state;
             async_on_remove "NEXIA_THERMOSTAT_UPDATE-2059661"
               async_write_ha_state;
             async_dispatcher_connect "NEXIA_ZONE_UPDATE-83261005"
               async_write_ha_state;
             async_on_remove "NEXIA_ZONE_UPDATE-83261005"
               async_write_ha_state].
Proof.
  exact (@thermostat_update_reaches_sibling_zones
           Samples.nexia_const Samples.int_ids
           Samples.home Samples.home Samples.upstairs Samples.downstairs
           "Upstairs" "83261002" "Downstairs" "83261005" [] [] eq_refl).
Defined.

(** Without the condition of X10 the signals can collide: with the
    constants "A-" and "A", thermostat 2 and zone -2 both give "A--2". *)
Example signals_collide_on_prefix_constants :
  let k : Const := {|
    ATTR_ATTRIBUTION := "attribution"; ATTRIBUTION := "n/a";
    DOMAIN := "nexia"; MANUFACTURER := "n/a";
    SIGNAL_THERMOSTAT_UPDATE := "A-"; SIGNAL_ZONE_UPDATE := "A" |} in
  @NexiaThermostatEntity.thermostat_signal k Samples.int_ids
    (@NexiaThermostat.Build_t Samples.int_ids 2%Z "m" "n" "f")
  = @NexiaThermostatZoneEntity.zone_signal k Samples.int_ids
      (@NexiaThermostatZone.Build_t Samples.int_ids (-2)%Z "z"
         (@NexiaThermostat.Build_t Samples.int_ids 2%Z "m" "n" "f")).
Proof. vm_compute. reflexivity. Qed.

End NexiaMore.

Module GoogleConftestFacts.
Import GoogleConftest.

Lemma string_length_append (a b : string) :
  String.length (a +:+ b) = String.length a + String.length b.
Proof.
  induction a as [|c a IH]; [done|].
  change (String c a +:+ b) with (String c (a +:+ b)). cbn. by rewrite IH.
Qed.

(** Strings that agree once the same ending is put after them are
    equal. *)
Lemma append_cancel_r (a b s : string) : a +:+ s = b +:+ s → a = b.
Proof.
  revert b. induction a as [|c a IH]; intros [|c' b] Heq; [done|..].
  - apply (f_equal String.length) in Heq.
    change ("" +:+ s) with s in Heq.
    rewrite string_length_append in Heq. cbn in Heq. lia.
  - apply (f_equal String.length) in Heq.
    change ("" +:+ s) with s in Heq.
    rewrite string_length_append in Heq. cbn in Heq. lia.
  - change (String c (a +:+ s) = String c' (b +:+ s)) in Heq.
    injection Heq as -> Heq. f_equal. by apply IH.
Qed.

Section storage.
Context {Credentials : Type}.

Lemma puts_then_get (cs : list Credentials) : ∀ storage,
  FakeStorage.get (foldl (λ st creds, FakeStorage.put creds st) storage cs)
    = match last cs with
      | Some creds => Some creds
      | None => FakeStorage.get storage
      end.
Proof.
  induction cs as [|c cs IH]; intros storage; [done|].
  cbn [foldl]. rewrite IH. destruct cs as [|c' cs]; [done|].
  change (last (c :: c' :: cs)) with (last (c' :: cs)).
  destruct (last (c' :: cs)) as [creds|] eqn:Hlast; [done|].
  by apply last_None in Hlast.
Qed.

(** X12.  The fake storage hands back what was stored last: empty when
    new, after any series of [put]s the credentials of the last one,
    and after [mock_token_read] the credentials of the fixture,
    whatever it held before. *)
Theorem fake_storage_returns_last_put
    (cs : list Credentials) (creds : Credentials)
    (storage : FakeStorage.t Credentials) :
  FakeStorage.get
    (foldl (λ st creds, FakeStorage.put creds st) FakeStorage.__init__ cs)
    = last cs
  ∧ FakeStorage.get (mock_token_read creds storage) = Some creds.
Proof.
  split; [|done]. rewrite puts_then_get. by destruct (last cs).
Qed.

End storage.

Section fixtures.
Context `{Const} {Exc : Type}.

(** X13.  The yaml entity of [calendars_config_entity] always has the
    keys [device_id], [name], [search] and [track], the last with the
    value of the [track] fixture; it has [ignore_availability] exactly
    when that fixture is not [None], and then with its value. *)
Theorem calendars_config_entity_keys (track : bool) (ignore : option bool) :
  let entity := calendars_config_entity track ignore in
  entity !! "device_id" = Some (AStr "backyard_light")
  ∧ entity !! "name" = Some (AStr "Backyard Light")
  ∧ entity !! "search" = Some (AStr "#Backyard")
  ∧ entity !! "track" = Some (ABool track)
  ∧ entity !! "ignore_availability" = ABool <$> ignore
  ∧ dom entity =@{gset string}
      list_to_set ["device_id"; "name"; "search"; "track"]
        ∪ (match ignore with
           | Some _ => {[ "ignore_availability" ]}
           | None => ∅
           end).
Proof.
  destruct ignore as [v|]; cbn; split_and!; try done;
    rewrite !dom_insert_L, dom_empty_L; set_solver.
Qed.

(** X14.  The component configuration built from [google_config] is
    never empty: for every value of the [track_new] fixture, [config]
    is the one-entry dictionary holding [google_config] under
    [DOMAIN]; the empty configuration only comes from an empty
    [google_config], which the fixture never produces. *)
Theorem config_always_has_domain (track_new : option bool) :
  config (google_config track_new) = {[ DOMAIN := google_config track_new ]}
  ∧ google_config track_new ≠ ∅
  ∧ (∀ g, config g = ∅ ↔ g = ∅).
Proof.
  assert (google_config track_new ≠ ∅) as Hne.
  { unfold google_config. destruct track_new; apply insert_non_empty. }
  split_and!; [|done|].
  - unfold config. by rewrite bool_decide_eq_true_2.
  - intros g. unfold config. case_bool_decide as Hg.
    + split; [|done]. intros Hempty.
      by apply map_non_empty_singleton in Hempty.
    + split; [|done]. intros _.
      destruct (decide (g = ∅)) as [|Hne']; [done|by destruct Hg].
Qed.

(** X15.  The fixtures for listing and for inserting events address
    the same endpoint of a calendar, one with GET and one with POST;
    each call adds one registration after those already made; and a
    call without a calendar id stands for [CALENDAR_ID]. *)
Theorem events_fixtures_share_endpoint
    (response : list (string * Json)) (items : list (list (string * Json)))
    (calendar_id : option string) (exc : option Exc)
    (mock : list (MockCall Exc)) :
  let url := API_BASE_URL +:+ "/calendars/"
               +:+ default CALENDAR_ID calendar_id +:+ "/events" in
  mock_events_list response calendar_id exc mock
    = mock ++ [get url response exc]
  ∧ mock_insert_event calendar_id mock = mock ++ [post url]
  ∧ mock_events_list response None exc mock
    = mock_events_list response (Some CALENDAR_ID) exc mock
  ∧ mock_insert_event None mock = mock_insert_event (Some CALENDAR_ID) mock
  ∧ mock_events_list_items items mock
    = mock_events_list [("items", JList (JDict <$> items))]
        (Some CALENDAR_ID) None mock.
Proof. by destruct calendar_id. Qed.

(** X16.  The mocked endpoints cannot be mistaken for one another:
    the events URLs of two calendars are equal only if the calendar
    ids are, and the URL of the calendar list is not the events URL of
    any calendar. *)
Theorem mocked_endpoints_are_distinct
    (r1 r2 : list (string * Json)) (c1 c2 : string) (e1 e2 : option Exc)
    (m1 m2 : list (MockCall Exc)) :
  (url_of <$> last (mock_events_list r1 (Some c1) e1 m1)
     = url_of <$> last (mock_events_list r2 (Some c2) e2 m2) → c1 = c2)
  ∧ (url_of <$> last (mock_insert_event (Some c1) m1)
       = url_of <$> last (mock_insert_event (Some c2) m2) → c1 = c2)
  ∧ url_of <$> last (mock_calendars_list r1 e1 m1)
    ≠ url_of <$> last (mock_events_list r2 (Some c2) e2 m2).
Proof.
  unfold mock_events_list, mock_insert_event, mock_calendars_list.
  rewrite !last_snoc. cbn. split_and!.
  - intros [= Heq]. apply (inj (String.append _)) in Heq.
    apply (inj (String.append "/calendars/")) in Heq.
    by apply append_cancel_r in Heq.
  - intros [= Heq]. apply (inj (String.append _)) in Heq.
    apply (inj (String.append "/calendars/")) in Heq.
    by apply append_cancel_r in Heq.
  - intros [= Heq]. by apply (inj (String.append _)) in Heq.
Qed.

End fixtures.

(** *** The fixtures on the sample constants *)

Example sample_config :
  @config Samples.google_const (@google_config Samples.google_const (Some false))
    !! "google"
  = Some (<[ "track_new_calendar" := ABool false ]>
          (<[ "client_secret" := AStr "client-secret" ]>
          (<[ "client_id" := AStr "client-id" ]> ∅))).
Proof. reflexivity. Qed.

Example sample_events_list_items :
  @mock_events_list_items Samples.google_const string [] []
  = [get ("https://www.googleapis.com/calendar/v3/calendars/"
            +:+ CALENDAR_ID +:+ "/events")
       [("items", JList [])] None].
Proof. reflexivity. Qed.

End GoogleConftestFacts.
